(** * cdk-chalice: the packaging pipeline of [cdk_chalice/chalice.py]

    A shallow embedding of [DockerConfig] and of the [Chalice] construct:
    the stage-configuration merge, the two build runners, and the SAM
    template rewrite.  Python dictionaries that are serialised again keep
    their insertion order and are association lists; dictionaries that are
    only looked up (environments, volumes, the file system) are [gmap]s.
    Effects are threaded through a small state-and-exception monad over an
    explicit [World]. *)

From stdpp Require Import base option list strings gmap fin_maps pretty.
From Stdlib Require Import ZArith Ascii String.

(** ** Strings *)

Module Str.

(** The one-character string holding a double quote. *)
Definition dquote : string := String (ascii_of_nat 34) EmptyString.

Fixpoint take (n : nat) (s : string) : string :=
  match n, s with
  | S n', String c s' => String c (take n' s')
  | _, _ => EmptyString
  end.

Fixpoint drop (n : nat) (s : string) : string :=
  match n, s with
  | S n', String _ s' => drop n' s'
  | _, _ => s
  end.

Fixpoint concat (l : list string) : string :=
  match l with
  | [] => EmptyString
  | s :: l' => s +:+ concat l'
  end.

(** [str.startswith] and [str.endswith]. *)
Fixpoint startswith (p s : string) : bool :=
  match p, s with
  | EmptyString, _ => true
  | String a p', String b s' => if Ascii.eqb a b then startswith p' s' else false
  | String _ _, EmptyString => false
  end.

Definition endswith (p s : string) : bool :=
  String.eqb (drop (String.length s - String.length p) s) p
  && (String.length p <=? String.length s)%nat.

(** [needle in hay]: [needle] is a contiguous part of [hay]. *)
Definition contains (hay needle : string) : Prop :=
  ∃ before after, hay = before +:+ needle +:+ after.

(** The strings of [parts] occur in [hay] one after the other, without
    overlap, in the order of the list. *)
Fixpoint in_order (parts : list string) (hay : string) : Prop :=
  match parts with
  | [] => True
  | p :: parts' => ∃ before rest, hay = before +:+ p +:+ rest ∧ in_order parts' rest
  end.

End Str.

(** ** [os.path.join] (posixpath), two arguments *)

Definition os_path_join (a b : string) : string :=
  if Str.startswith "/" b then b
  else if String.eqb a "" || Str.endswith "/" a then a +:+ b
  else a +:+ "/" +:+ b.

(** ** JSON documents as Python sees them after [json.load] *)

#[warnings="-register-all"] Inductive json : Type :=
| JNull
| JBool (b : bool)
| JInt (n : Z)
| JFloat (repr : string)
| JStr (s : string)
| JArr (items : list json)
| JObj (fields : list (string * json)).

(** A Python [dict] with string keys: insertion-ordered. *)
Abbreviation dict := (list (string * json)).

Module Dict.

(** [d[k]] / [k in d]. *)
Fixpoint get (k : string) (d : dict) : option json :=
  match d with
  | [] => None
  | (k', v) :: d' => if String.eqb k k' then Some v else get k d'
  end.

(** [d[k] = v]: an existing key keeps its position, a new one goes last. *)
Fixpoint set (k : string) (v : json) (d : dict) : dict :=
  match d with
  | [] => [(k, v)]
  | (k', v') :: d' =>
      if String.eqb k k' then (k', v) :: d' else (k', v') :: set k v d'
  end.

Definition keys (d : dict) : list string := d.*1.

End Dict.

(** ** Exceptions *)

Inductive exn : Type :=
| FileNotFoundError (path : string)
| JSONDecodeError
| KeyError (key : string)
| TypeError
| AttributeError
| ChaliceError (message : string)
(** [docker.errors.NotFound], the class named by the handler of
    [_package_app_container], with its subclasses. *)
| DockerNotFound (explanation : string)
(** [docker.errors.ContainerError]: the container exited with a non-zero
    status. *)
| DockerContainerError (exit_status : Z)
(** Any other [docker.errors.DockerException]. *)
| DockerAPIError (explanation : string)
(** The operating system refused to start the child process. *)
| OSError (strerror : string)
(** The asset constructor did not find the file at its [path]. *)
| AssetPathError (path : string).

Inductive result (A : Type) : Type :=
| Ok (a : A)
| Raise (e : exn).
Arguments Ok {A} a.
Arguments Raise {A} e.

(** ** The world outside the interpreter *)

(** [docker_volumes]: host path to (bind, mode). *)
Abbreviation volumes := (gmap string (string * string)).

Inductive event : Type :=
| EvOpen (path mode : string)
| EvWriteFile (path : string)
| EvPrint (line : string)
| EvWhich (name : string)
| EvSubprocessRun (command : list (option string)) (cwd : string)
    (env : gmap string string)
| EvDockerFromEnv
| EvContainersRun (image command : string) (environment : gmap string string)
    (remove : bool) (vols : volumes) (working_dir : string)
| EvAsset (id path : string)
| EvCfnInclude (id : string) (template : json).

Record World : Type := mkWorld {
  fs : gmap string string;          (* path to file contents *)
  os_environ : gmap string string;
  os_getcwd : string;
  uuid_count : nat;                 (* identifiers drawn so far *)
  trace : list event;               (* oldest first *)
}.

Definition with_fs (f : gmap string string) (w : World) : World :=
  mkWorld f (os_environ w) (os_getcwd w) (uuid_count w) (trace w).

Definition with_uuid_count (n : nat) (w : World) : World :=
  mkWorld (fs w) (os_environ w) (os_getcwd w) n (trace w).

Definition log (e : event) (w : World) : World :=
  mkWorld (fs w) (os_environ w) (os_getcwd w) (uuid_count w) (trace w ++ [e]).

(** ** The monad: state that survives an exception *)

Definition M (A : Type) : Type := World → result A * World.

Definition ret {A} (a : A) : M A := λ w, (Ok a, w).
Definition raise {A} (e : exn) : M A := λ w, (Raise e, w).
Definition bind {A B} (m : M A) (k : A → M B) : M B :=
  λ w, match m w with
       | (Ok a, w') => k a w'
       | (Raise e, w') => (Raise e, w')
       end.

(** [try: m except h]: [h] answers [Some] for the exceptions it handles. *)
Definition try_except {A} (m : M A) (h : exn → option (M A)) : M A :=
  λ w, match m w with
       | (Ok a, w') => (Ok a, w')
       | (Raise e, w') =>
           match h e with
           | Some k => k w'
           | None => (Raise e, w')
           end
       end.

Definition get_world : M World := λ w, (Ok w, w).
Definition emit (e : event) : M unit := λ w, (Ok tt, log e w).
Definition lift {A} (r : result A) : M A := λ w, (r, w).

Declare Scope py_scope.
Delimit Scope py_scope with py.
Notation "'let!' x ':=' m 'in' k" := (bind m (λ x, k))
  (at level 10, x name, m at level 100, k at level 200) : py_scope.

(** ** The host: libraries and services the module calls *)

(** What [assets.Asset] exposes to this module. *)
Record Asset : Type := mkAsset {
  s3_bucket_name : string;
  s3_object_key : string;
}.

Record Host : Type := mkHost {
  (** [json.loads] on a file's text; [None] is [JSONDecodeError]. *)
  json_loads : string → option json;
  (** [json.dumps(_, indent=2)]. *)
  json_dumps : json → string;
  (** [sys.version_info.major], [sys.version_info.minor]. *)
  sys_version_info : N * N;
  (** The [n]-th value of [uuid.uuid4().hex]. *)
  uuid4_hex : nat → string;
  (** [shutil.which], given the environment and the files. *)
  shutil_which : string → gmap string string → gmap string string → option string;
  (** [subprocess.run(command, cwd=, env=)] without [check], given the
      files: the files the child left behind, and either the exit status of the child or the
      exception raised when it could not be started. *)
  subprocess_run : list (option string) → string → gmap string string →
                   gmap string string → gmap string string * result Z;
  (** [docker.from_env()], given the environment: the exception raised when
      the client cannot be made, if any. *)
  docker_from_env : gmap string string → option exn;
  (** [client.containers.run(image, command=, environment=, remove=,
      volumes=, working_dir=)], given the files: the files left behind and
      the exception raised, if any. *)
  containers_run : string → string → gmap string string → bool → volumes →
                   string → gmap string string → gmap string string * option exn;
  (** Where the asset for the file at a path, with the given contents, is
      published. *)
  asset_location : string → string → Asset;
}.

(** ** Files *)

Record file : Type := mkFile { f_path : string; f_pos : nat }.

(** [open(path, mode)] for the modes ['r'] and ['r+']: the file must exist. *)
Definition open (path mode : string) : M file :=
  (let! _ := emit (EvOpen path mode) in
   let! w := get_world in
   match fs w !! path with
   | None => raise (FileNotFoundError path)
   | Some _ => ret (mkFile path 0)
   end)%py.

Definition contents (f : file) : M string :=
  (let! w := get_world in
   match fs w !! f_path f with
   | None => raise (FileNotFoundError (f_path f))
   | Some c => ret c
   end)%py.

(** [f.read()]: the text from the position to the end. *)
Definition f_read (f : file) : M (string * file) :=
  (let! c := contents f in
   ret (Str.drop (f_pos f) c, mkFile (f_path f) (String.length c)))%py.

Definition f_seek (f : file) (pos : nat) : M file :=
  ret (mkFile (f_path f) pos).

(** [f.write(data)]: overwrites from the position on, keeps what lies
    beyond the written text. *)
Definition f_write (f : file) (data : string) : M file :=
  (let! c := contents f in
   let! _ := emit (EvWriteFile (f_path f)) in
   (λ w, (Ok (mkFile (f_path f) (f_pos f + String.length data)),
          with_fs (<[f_path f :=
                       Str.take (f_pos f) c +:+ data
                       +:+ Str.drop (f_pos f + String.length data) c]> (fs w)) w)))%py.

(** [f.truncate()]: cuts the file at the position. *)
Definition f_truncate (f : file) : M unit :=
  (let! c := contents f in
   let! _ := emit (EvWriteFile (f_path f)) in
   (λ w, (Ok tt, with_fs (<[f_path f := Str.take (f_pos f) c]> (fs w)) w)))%py.

(** ** Subscripts on parsed JSON *)

(** [v[k]]. *)
Definition subscript (v : json) (k : string) : result json :=
  match v with
  | JObj d =>
      match Dict.get k d with
      | Some x => Ok x
      | None => Raise (KeyError k)
      end
  | _ => Raise TypeError
  end.

(** [v[k] = x]. *)
Definition store_subscript (v : json) (k : string) (x : json) : result json :=
  match v with
  | JObj d => Ok (JObj (Dict.set k x d))
  | _ => Raise TypeError
  end.

(** [v.items()]. *)
Definition items (v : json) : result dict :=
  match v with
  | JObj d => Ok d
  | _ => Raise AttributeError
  end.

(** [v == s] for a string literal [s]. *)
Definition eq_str (v : json) (s : string) : bool :=
  match v with
  | JStr t => String.eqb t s
  | _ => false
  end.

(** [d.setdefault(k, v)] on an environment. *)
Definition setdefault (k v : string) (env : gmap string string) : gmap string string :=
  match env !! k with
  | Some _ => env
  | None => <[k := v]> env
  end.

(** ** [DockerConfig] *)

Record DockerConfig : Type := mkDockerConfig {
  image : string;
  env : gmap string string;
  init_commands : list string;
}.

Section Program.

Context (host : Host).

(** [f'lambci/lambda:build-python{python_version}'] *)
Definition default_image : string :=
  let python_version :=
    pretty (sys_version_info host).1 +:+ "." +:+ pretty (sys_version_info host).2 in
  "lambci/lambda:build-python" +:+ python_version.

(** [DockerConfig.__init__]; an argument left out or [None] is [None]. *)
Definition DockerConfig_init (image : option string)
    (env : option (gmap string string))
    (init_commands : option (list string)) : DockerConfig :=
  let self_image :=
    match image with
    | None | Some "" => default_image
    | Some i => i
    end in
  let self_env :=
    match env with
    | None => ∅
    | Some e => if decide (e = ∅) then ∅ else e
    end in
  let self_env := setdefault "AWS_DEFAULT_REGION" "us-east-1" self_env in
  let init_commands :=
    match init_commands with
    | None | Some [] => []
    | Some l => l
    end in
  mkDockerConfig self_image self_env init_commands.

(** ** [Chalice] *)

Record Chalice : Type := mkChalice {
  source_dir : string;
  stage_name : string;
  stage_config : dict;
  docker_config : option DockerConfig;
}.

Definition config_path (self : Chalice) : string :=
  os_path_join (source_dir self) ".chalice/config.json".

(** [json.load(fp)] *)
Definition json_load (f : file) : M (json * file) :=
  (let! r := f_read f in
   match json_loads host r.1 with
   | Some j => ret (j, r.2)
   | None => raise JSONDecodeError
   end)%py.

Definition _create_stage_with_config (self : Chalice) : M unit :=
  (let! config_file := open (config_path self) "r+" in
   let! r := json_load config_file in
   let '(config, config_file) := r in
   let! stages := lift (subscript config "stages") in
   let! stages := lift (store_subscript stages (stage_name self)
                          (JObj (stage_config self))) in
   (* [stages] is the object held by [config]: the store is seen there *)
   let! config := lift (store_subscript config "stages" stages) in
   let! config_file := f_seek config_file 0 in
   let! config_file := f_write config_file (json_dumps host config) in
   f_truncate config_file)%py.

(** The f-string of [_package_app_container]. *)
Definition docker_command (self : Chalice) (docker_config : DockerConfig) : string :=
  "bash -c " +:+ Str.dquote
  +:+ Str.concat ((λ command, command +:+ "; ") <$> init_commands docker_config)
  +:+ "pip install --no-cache-dir -r requirements.txt; "
  +:+ "chalice package --stage " +:+ stage_name self +:+ " /chalice.out"
  +:+ Str.dquote.

Definition unsupported_image_message (docker_config : DockerConfig) : string :=
  "Unsupported Python version in docker image: " +:+ image docker_config
  +:+ ". See AWS Lambda "
  +:+ "Runtimes documentation for supported versions: "
  +:+ "https://docs.aws.amazon.com/lambda/latest/dg/lambda-runtimes.html".

(** [docker.from_env()]; the client it returns is the container runtime of
    the host. *)
Definition from_env : M unit :=
  (let! _ := emit EvDockerFromEnv in
   let! w := get_world in
   match docker_from_env host (os_environ w) with
   | Some e => raise e
   | None => ret tt
   end)%py.

(** [client.containers.run(...)] *)
Definition client_containers_run (image command : string)
    (environment : gmap string string) (remove : bool) (vols : volumes)
    (working_dir : string) : M unit :=
  (let! _ := emit (EvContainersRun image command environment remove vols working_dir) in
   λ w, let '(files, raised) :=
          containers_run host image command environment remove vols working_dir
            (fs w) in
        (match raised with Some e => Raise e | None => Ok tt end,
         with_fs files w))%py.

(** The dictionary display of [_package_app_container]: of two equal
    keys the later one stays. *)
Definition docker_volumes (self : Chalice) (sam_package_dir : string) : volumes :=
  <[sam_package_dir := ("/chalice.out", "rw")]>
    (<[source_dir self := ("/app", "rw")]> ∅).

(** [_package_app_container]; [docker_config] is [self.docker_config],
    which the caller has found not to be [None]. *)
Definition _package_app_container (self : Chalice) (docker_config : DockerConfig)
    (sam_package_dir : string) : M unit :=
  (let docker_volumes := docker_volumes self sam_package_dir in
   let docker_command := docker_command self docker_config in
   let! client := from_env in
   let! _ := emit (EvPrint ("Packaging Chalice app for " +:+ stage_name self)) in
   try_except
     (client_containers_run (image docker_config) docker_command
        (env docker_config) true docker_volumes "/app")
     (λ e, match e with
           | DockerNotFound _ =>
               Some (raise (ChaliceError (unsupported_image_message docker_config)))
           | _ => None
           end))%py.

(** [shutil.which(name)] *)
Definition which (name : string) : M (option string) :=
  (let! _ := emit (EvWhich name) in
   let! w := get_world in
   ret (shutil_which host name (os_environ w) (fs w)))%py.

(** [subprocess.run(command, cwd=cwd, env=env)]: the completed process,
    of which only the exit status is kept here. *)
Definition subprocess_run_ (command : list (option string)) (cwd : string)
    (env : gmap string string) : M Z :=
  (let! _ := emit (EvSubprocessRun command cwd env) in
   λ w, let '(files, outcome) := subprocess_run host command cwd env (fs w) in
        (outcome, with_fs files w))%py.

(** [env = {}; for k, v in os.environ.items(): env[k] = v] *)
Definition copy_environ (environ : gmap string string) : gmap string string :=
  foldl (λ env kv, <[kv.1 := kv.2]> env) ∅ (map_to_list environ).

Definition _package_app_subprocess (self : Chalice) (sam_package_dir : string) : M unit :=
  (let! chalice_exe := which "chalice" in
   let command := [chalice_exe; Some "package"; Some "--stage";
                   Some (stage_name self); Some sam_package_dir] in
   let! w := get_world in
   let env := copy_environ (os_environ w) in
   let env := setdefault "AWS_DEFAULT_REGION" "us-east-1" env in
   let! _ := emit (EvPrint ("Packaging Chalice app for " +:+ stage_name self)) in
   (* the completed process is not looked at *)
   let! _ := subprocess_run_ command (source_dir self) env in
   ret tt)%py.

(** [uuid.uuid4().hex] *)
Definition uuid4 : M string :=
  λ w, (Ok (uuid4_hex host (uuid_count w)), with_uuid_count (S (uuid_count w)) w).

Definition _package_app (self : Chalice) : M string :=
  (let! w := get_world in
   let chalice_out_dir := os_path_join (os_getcwd w) "chalice.out" in
   let! hex := uuid4 in
   let sam_package_dir := os_path_join chalice_out_dir hex in
   let! _ :=
     match docker_config self with
     | Some docker_config => _package_app_container self docker_config sam_package_dir
     | None => _package_app_subprocess self sam_package_dir
     end in
   ret sam_package_dir)%py.

(** [assets.Asset(self, id, path=path)]: publishes the file at [path]. *)
Definition Asset_new (id path : string) : M Asset :=
  (let! w := get_world in
   match fs w !! path with
   | None => raise (AssetPathError path)
   | Some archive =>
       let! _ := emit (EvAsset id path) in
       ret (asset_location host path archive)
   end)%py.

Definition function_type : string := "AWS::Serverless::Function".

(** [[v for k, v in resources if v['Type'] == 'AWS::Serverless::Function']]:
    the selected values are the objects held by [resources] themselves,
    named here by their positions, counted from [i]. *)
Fixpoint select_functions (i : nat) (resources : dict) : result (list nat) :=
  match resources with
  | [] => Ok []
  | (_, v) :: resources' =>
      match subscript v "Type" with
      | Raise e => Raise e
      | Ok type =>
          match select_functions (S i) resources' with
          | Raise e => Raise e
          | Ok functions =>
              Ok (if eq_str type function_type then i :: functions else functions)
          end
      end
  end.

Definition code_uri (sam_deployment_asset : Asset) : json :=
  JObj [("Bucket", JStr (s3_bucket_name sam_deployment_asset));
        ("Key", JStr (s3_object_key sam_deployment_asset))].

(** The body of the loop, on the object [function]. *)
Definition set_code_uri (sam_deployment_asset : Asset) (function : json) : result json :=
  match subscript function "Properties" with
  | Raise e => Raise e
  | Ok properties =>
      match store_subscript properties "CodeUri" (code_uri sam_deployment_asset) with
      | Raise e => Raise e
      | Ok properties =>
          (* [properties] is the object held by [function] *)
          store_subscript function "Properties" properties
      end
  end.

(** [for function in functions: ...], on the resources that hold them. *)
Fixpoint update_functions (sam_deployment_asset : Asset) (functions : list nat)
    (resources : dict) : result dict :=
  match functions with
  | [] => Ok resources
  | i :: functions' =>
      match resources !! i with
      | None => Ok resources
      | Some (k, function) =>
          match set_code_uri sam_deployment_asset function with
          | Raise e => Raise e
          | Ok function =>
              update_functions sam_deployment_asset functions'
                (<[i := (k, function)]> resources)
          end
      end
  end.

Definition deployment_zip_path (sam_package_dir : string) : string :=
  os_path_join sam_package_dir "deployment.zip".

Definition sam_template_path (sam_package_dir : string) : string :=
  os_path_join sam_package_dir "sam.json".

Definition _update_sam_template (sam_package_dir : string) : M json :=
  (let! sam_deployment_asset :=
     Asset_new "ChaliceAppCode" (deployment_zip_path sam_package_dir) in
   let! sam_template_file := open (sam_template_path sam_package_dir) "r" in
   let! r := json_load sam_template_file in
   let sam_template := r.1 in
   let! resources := lift (subscript sam_template "Resources") in
   let! resources := lift (items resources) in
   let! functions := lift (select_functions 0 resources) in
   let! resources := lift (update_functions sam_deployment_asset functions resources) in
   (* the resources were changed in place, inside [sam_template] *)
   lift (store_subscript sam_template "Resources" (JObj resources)))%py.

(** [Chalice.__init__], with [scope.to_string()] already taken. *)
Definition Chalice_init (scope_to_string source_dir : string) (stage_config : dict)
    (docker_config : option DockerConfig) : M Chalice :=
  (let self := mkChalice source_dir scope_to_string stage_config docker_config in
   let! _ := _create_stage_with_config self in
   let! sam_package_dir := _package_app self in
   let! sam_template := _update_sam_template sam_package_dir in
   let! _ := emit (EvCfnInclude "ChaliceApp" sam_template) in
   ret self)%py.

End Program.

(** ** A JSON writer and reader for the worked examples

    [dumps] lays a document out as [json.dumps(_, indent=2)] does; [loads]
    reads JSON text back.  The theorems below hold for every [Host]; these
    two functions are the [json_dumps] and [json_loads] of the host on which
    the examples are run.  Characters are code points below 256. *)

Module PyJson.

Definition nl : string := String (ascii_of_nat 10) EmptyString.
Definition backslash : string := String (ascii_of_nat 92) EmptyString.

Fixpoint spaces (n : nat) : string :=
  match n with
  | O => EmptyString
  | S n' => String " " (spaces n')
  end.

Definition hex_digit (n : N) : ascii :=
  ascii_of_N (if (n <? 10)%N then 48 + n else 87 + n)%N.

Definition escape_char (c : ascii) : string :=
  let n := N_of_ascii c in
  if (n =? 34)%N then backslash +:+ Str.dquote
  else if (n =? 92)%N then backslash +:+ backslash
  else if (n =? 10)%N then backslash +:+ "n"
  else if (n =? 13)%N then backslash +:+ "r"
  else if (n =? 9)%N then backslash +:+ "t"
  else if (n =? 8)%N then backslash +:+ "b"
  else if (n =? 12)%N then backslash +:+ "f"
  else if (n <? 32)%N || (126 <? n)%N then
    backslash +:+ "u00"
    +:+ String (hex_digit (n / 16)) (String (hex_digit (n mod 16)) EmptyString)
  else String c EmptyString.

Fixpoint escape (s : string) : string :=
  match s with
  | EmptyString => EmptyString
  | String c s' => escape_char c +:+ escape s'
  end.

Definition quote (s : string) : string := Str.dquote +:+ escape s +:+ Str.dquote.

Fixpoint dumps_at (level : nat) (j : json) : string :=
  let inner := nl +:+ spaces (2 * S level) in
  let outer := nl +:+ spaces (2 * level) in
  match j with
  | JNull => "null"
  | JBool true => "true"
  | JBool false => "false"
  | JInt n => pretty n
  | JFloat r => r
  | JStr s => quote s
  | JArr [] => "[]"
  | JArr (x :: xs) =>
      "[" +:+ inner +:+ dumps_at (S level) x
      +:+ (fix rest (l : list json) : string :=
             match l with
             | [] => EmptyString
             | y :: l' => "," +:+ inner +:+ dumps_at (S level) y +:+ rest l'
             end) xs
      +:+ outer +:+ "]"
  | JObj [] => "{}"
  | JObj ((k, x) :: xs) =>
      "{" +:+ inner +:+ quote k +:+ ": " +:+ dumps_at (S level) x
      +:+ (fix rest (l : list (string * json)) : string :=
             match l with
             | [] => EmptyString
             | (k', y) :: l' =>
                 "," +:+ inner +:+ quote k' +:+ ": " +:+ dumps_at (S level) y
                 +:+ rest l'
             end) xs
      +:+ outer +:+ "}"
  end.

Definition dumps (j : json) : string := dumps_at 0 j.

(** *** Reading *)

Definition is_ws (c : ascii) : bool :=
  let n := N_of_ascii c in
  (n =? 32)%N || (n =? 10)%N || (n =? 13)%N || (n =? 9)%N.

Definition is_digit (c : ascii) : bool :=
  let n := N_of_ascii c in (48 <=? n)%N && (n <=? 57)%N.

Fixpoint skip_ws (s : string) : string :=
  match s with
  | String c s' => if is_ws c then skip_ws s' else s
  | EmptyString => EmptyString
  end.

Definition hex_value (c : ascii) : option N :=
  let n := N_of_ascii c in
  if (48 <=? n)%N && (n <=? 57)%N then Some (n - 48)%N
  else if (97 <=? n)%N && (n <=? 102)%N then Some (n - 87)%N
  else if (65 <=? n)%N && (n <=? 70)%N then Some (n - 55)%N
  else None.

Definition unescape (c : ascii) : option ascii :=
  let n := N_of_ascii c in
  if (n =? 34)%N || (n =? 92)%N || (n =? 47)%N then Some c
  else if (n =? 110)%N then Some (ascii_of_N 10)
  else if (n =? 114)%N then Some (ascii_of_N 13)
  else if (n =? 116)%N then Some (ascii_of_N 9)
  else if (n =? 98)%N then Some (ascii_of_N 8)
  else if (n =? 102)%N then Some (ascii_of_N 12)
  else None.

(** The characters of a string literal after its opening quote, and what
    follows the closing quote. *)
Fixpoint read_chars (s : string) : option (string * string) :=
  match s with
  | EmptyString => None
  | String c s' =>
      if (N_of_ascii c =? 34)%N then Some (EmptyString, s')
      else if (N_of_ascii c =? 92)%N then
        match s' with
        | String e s'' =>
            match unescape e with
            | Some ch =>
                match read_chars s'' with
                | Some (r, rest) => Some (String ch r, rest)
                | None => None
                end
            | None =>
                match s'' with
                | String h1 (String h2 (String h3 (String h4 s3))) =>
                    match hex_value h1, hex_value h2, hex_value h3, hex_value h4 with
                    | Some 0%N, Some 0%N, Some a, Some b =>
                        if (N_of_ascii e =? 117)%N then
                          match read_chars s3 with
                          | Some (r, rest) =>
                              Some (String (ascii_of_N (16 * a + b)) r, rest)
                          | None => None
                          end
                        else None
                    | _, _, _, _ => None
                    end
                | _ => None
                end
            end
        | EmptyString => None
        end
      else
        match read_chars s' with
        | Some (r, rest) => Some (String c r, rest)
        | None => None
        end
  end.

Fixpoint span (p : ascii → bool) (s : string) : string * string :=
  match s with
  | String c s' =>
      if p c then let '(a, b) := span p s' in (String c a, b) else (EmptyString, s)
  | EmptyString => (EmptyString, EmptyString)
  end.

Fixpoint N_of_digits (acc : N) (s : string) : N :=
  match s with
  | String c s' => N_of_digits (10 * acc + (N_of_ascii c - 48))%N s'
  | EmptyString => acc
  end.

Definition is_float_char (c : ascii) : bool :=
  let n := N_of_ascii c in
  is_digit c || (n =? 46)%N || (n =? 101)%N || (n =? 69)%N || (n =? 43)%N || (n =? 45)%N.

Definition read_number (s : string) : option (json * string) :=
  let '(sign, s1) :=
    match s with
    | String "-" s' => ("-", s')
    | _ => (EmptyString, s)
    end in
  let '(digits, s2) := span is_digit s1 in
  match digits with
  | EmptyString => None
  | _ =>
      match s2 with
      | String c _ =>
          if (N_of_ascii c =? 46)%N || (N_of_ascii c =? 101)%N || (N_of_ascii c =? 69)%N
          then let '(tail, s3) := span is_float_char s2 in
               Some (JFloat (sign +:+ digits +:+ tail), s3)
          else Some (JInt (if String.eqb sign "-" then - Z.of_N (N_of_digits 0 digits)
                           else Z.of_N (N_of_digits 0 digits)), s2)
      | EmptyString =>
          Some (JInt (if String.eqb sign "-" then - Z.of_N (N_of_digits 0 digits)
                      else Z.of_N (N_of_digits 0 digits)), s2)
      end
  end.

(** [dict(pairs)]: a repeated key keeps its first place and its last value. *)
Definition dict_of_pairs (pairs : list (string * json)) : dict :=
  foldl (λ d kv, Dict.set kv.1 kv.2 d) [] pairs.

Definition keyword (w : string) (j : json) (s : string) : option (json * string) :=
  if Str.startswith w s then Some (j, Str.drop (String.length w) s) else None.

Fixpoint read_value (fuel : nat) (s : string) : option (json * string) :=
  match fuel with
  | O => None
  | S fuel' =>
      match skip_ws s with
      | EmptyString => None
      | String c s' as s0 =>
          let n := N_of_ascii c in
          if (n =? 123)%N then
            match skip_ws s' with
            | String "}" r => Some (JObj [], r)
            | _ => read_members fuel' s' []
            end
          else if (n =? 91)%N then
            match skip_ws s' with
            | String "]" r => Some (JArr [], r)
            | _ => read_items fuel' s' []
            end
          else if (n =? 34)%N then
            match read_chars s' with
            | Some (str, r) => Some (JStr str, r)
            | None => None
            end
          else if (n =? 110)%N then keyword "null" JNull s0
          else if (n =? 116)%N then keyword "true" (JBool true) s0
          else if (n =? 102)%N then keyword "false" (JBool false) s0
          else read_number s0
      end
  end
with read_items (fuel : nat) (s : string) (acc : list json) : option (json * string) :=
  match fuel with
  | O => None
  | S fuel' =>
      match read_value fuel' s with
      | Some (v, r) =>
          match skip_ws r with
          | String "," r' => read_items fuel' r' (v :: acc)
          | String "]" r' => Some (JArr (rev (v :: acc)), r')
          | _ => None
          end
      | None => None
      end
  end
with read_members (fuel : nat) (s : string) (acc : list (string * json))
    : option (json * string) :=
  match fuel with
  | O => None
  | S fuel' =>
      match skip_ws s with
      | String q s1 =>
          if (N_of_ascii q =? 34)%N then
            match read_chars s1 with
            | Some (k, r1) =>
                match skip_ws r1 with
                | String ":" r2 =>
                    match read_value fuel' r2 with
                    | Some (v, r3) =>
                        match skip_ws r3 with
                        | String "," r' => read_members fuel' r' ((k, v) :: acc)
                        | String "}" r' =>
                            Some (JObj (dict_of_pairs (rev ((k, v) :: acc))), r')
                        | _ => None
                        end
                    | None => None
                    end
                | _ => None
                end
            | None => None
            end
          else None
      | EmptyString => None
      end
  end.

Definition loads (s : string) : option json :=
  match read_value (2 * String.length s + 2) s with
  | Some (j, rest) =>
      match skip_ws rest with
      | EmptyString => Some j
      | _ => None
      end
  | None => None
  end.

End PyJson.

(** ** Vocabulary of the properties *)

(** [v['Type'] == 'AWS::Serverless::Function'] holds of the resource [v]. *)
Definition is_function (v : json) : bool :=
  match subscript v "Type" with
  | Ok type => eq_str type function_type
  | Raise _ => false
  end.

(** A resource the rewrite can process: an object with a [Type], and with a
    [Properties] object when it is a function. *)
Definition resource_ok (v : json) : bool :=
  match v with
  | JObj d =>
      match Dict.get "Type" d with
      | Some type =>
          if eq_str type function_type then
            match Dict.get "Properties" d with
            | Some (JObj _) => true
            | _ => false
            end
          else true
      | None => false
      end
  | _ => false
  end.

(** The resource [v] after the rewrite. *)
Definition rewritten (a : Asset) (v : json) : json :=
  if is_function v then
    match set_code_uri a v with
    | Ok v' => v'
    | Raise _ => v
    end
  else v.

Definition is_asset (e : event) : bool :=
  match e with EvAsset _ _ => true | _ => false end.

Definition is_write (e : event) : bool :=
  match e with EvWriteFile _ => true | _ => false end.

Definition is_containers_run (e : event) : bool :=
  match e with EvContainersRun _ _ _ _ _ _ => true | _ => false end.

(** A call that only the containerized runner makes. *)
Definition is_container_call (e : event) : bool :=
  match e with
  | EvDockerFromEnv | EvContainersRun _ _ _ _ _ _ => true
  | _ => false
  end.

(** The events of the containerized runner started in a world with the
    environment [environ], for the output directory [sam_package_dir]. *)
Definition container_events (host : Host) (self : Chalice) (dc : DockerConfig)
    (sam_package_dir : string) (environ : gmap string string) : list event :=
  EvDockerFromEnv ::
  match docker_from_env host environ with
  | Some _ => []
  | None =>
      [EvPrint ("Packaging Chalice app for " +:+ stage_name self);
       EvContainersRun (image dc) (docker_command self dc) (env dc) true
         (docker_volumes self sam_package_dir) "/app"]
  end.

Definition is_subprocess_run (e : event) : bool :=
  match e with EvSubprocessRun _ _ _ => true | _ => false end.

(** The environments handed to the build, in the order of the calls. *)
Definition build_environments (t : list event) : list (gmap string string) :=
  omap (λ e, match e with
             | EvSubprocessRun _ _ env => Some env
             | EvContainersRun _ _ env _ _ _ => Some env
             | _ => None
             end) t.

(** The shell commands handed to the container runtime. *)
Definition container_commands (t : list event) : list string :=
  omap (λ e, match e with
             | EvContainersRun _ command _ _ _ _ => Some command
             | _ => None
             end) t.

(** [observed] is [caller] with the region defaulted. *)
Definition region_defaulted (caller observed : gmap string string) : Prop :=
  (∀ v, caller !! "AWS_DEFAULT_REGION" = Some v →
        observed !! "AWS_DEFAULT_REGION" = Some v)
  ∧ (caller !! "AWS_DEFAULT_REGION" = None →
     observed !! "AWS_DEFAULT_REGION" = Some "us-east-1")
  ∧ (∀ k, k ≠ "AWS_DEFAULT_REGION" → observed !! k = caller !! k).

(** The command of the local runner. *)
Definition local_command (host : Host) (self : Chalice) (sam_package_dir : string)
    (w : World) : list (option string) :=
  [shutil_which host "chalice" (os_environ w) (fs w); Some "package";
   Some "--stage"; Some (stage_name self); Some sam_package_dir].

Definition local_env (w : World) : gmap string string :=
  setdefault "AWS_DEFAULT_REGION" "us-east-1" (os_environ w).

(** The output directory that [_package_app] chooses in the world [w]. *)
Definition chosen_dir (host : Host) (w : World) : string :=
  os_path_join (os_path_join (os_getcwd w) "chalice.out")
    (uuid4_hex host (uuid_count w)).

(** The events of a packaging run started in [w]. *)
Definition packaging_events (host : Host) (self : Chalice) (w : World) : list event :=
  match docker_config self with
  | Some dc => container_events host self dc (chosen_dir host w) (os_environ w)
  | None =>
      [EvWhich "chalice";
       EvPrint ("Packaging Chalice app for " +:+ stage_name self);
       EvSubprocessRun (local_command host self (chosen_dir host w) w)
         (source_dir self) (local_env w)]
  end.

(** ** A host and an application for the worked examples *)

Module Example.

Definition manifest : json :=
  JObj [("AWSTemplateFormatVersion", JStr "2010-09-09");
        ("Resources",
         JObj [("APIHandler",
                JObj [("Type", JStr "AWS::Serverless::Function");
                      ("Properties",
                       JObj [("Runtime", JStr "python3.7");
                             ("CodeUri", JStr "./deployment.zip");
                             ("Timeout", JInt 60)])]);
               ("RestAPI",
                JObj [("Type", JStr "AWS::Serverless::Api");
                      ("Properties", JObj [("StageName", JStr "api")])]);
               ("Worker",
                JObj [("Properties", JObj [("Handler", JStr "app.worker")]);
                      ("Type", JStr "AWS::Serverless::Function")])])].

(** The files a successful build leaves under [dir]. *)
Definition built (dir : string) (files : gmap string string) : gmap string string :=
  <[os_path_join dir "deployment.zip" := "PK-archive"]>
    (<[os_path_join dir "sam.json" := PyJson.dumps manifest]> files).

(** A host whose local build exits with [status] when the executable is
    found (a command without executable is a [TypeError]), whose container
    runtime raises [raised], and whose client cannot be made when
    [no_client] holds an exception. *)
Definition host_of (status : Z) (raised no_client : option exn) : Host := {|
  json_loads := PyJson.loads;
  json_dumps := PyJson.dumps;
  sys_version_info := (3, 7)%N;
  uuid4_hex := λ n, "9f1c" +:+ pretty n;
  shutil_which := λ name _ files,
    match files !! ("/usr/local/bin/" +:+ name) with
    | Some _ => Some ("/usr/local/bin/" +:+ name)
    | None => None
    end;
  subprocess_run := λ command cwd env files,
    match command, last command with
    | Some _ :: _, Some (Some dir) =>
        (if bool_decide (status = 0%Z) then built dir files else files, Ok status)
    | _, _ => (files, Raise TypeError)
    end;
  docker_from_env := λ _, no_client;
  containers_run := λ image command environment remove vols working_dir files,
    (files, raised);
  asset_location := λ path archive, mkAsset "cdk-staging-bucket" ("assets/" +:+ archive);
|}.

Definition host_with (status : Z) (raised : option exn) : Host :=
  host_of status raised None.

Definition host : Host := host_with 0 None.

(** No container daemon answers. *)
Definition host_no_daemon : Host :=
  host_of 0 None (Some (DockerAPIError "Error while fetching server API version")).

(** The runtime does not find something other than the image. *)
Definition host_no_container : Host :=
  host_with 0 (Some (DockerNotFound "No such container: 9f1c0")).

(** The build exits with status 1; the image is not found; the container
    exits with status 2. *)
Definition host_build_fails : Host := host_with 1 None.
Definition host_no_image : Host :=
  host_with 0 (Some (DockerNotFound "No such image: lambci/lambda:build-python3.7")).
Definition host_container_fails : Host :=
  host_with 0 (Some (DockerContainerError 2)).

Definition config : json :=
  JObj [("version", JStr "2.0");
        ("app_name", JStr "demo");
        ("stages", JObj [("dev", JObj [("api_gateway_stage", JStr "api")])])].

Definition world : World := {|
  fs := {[ "app/.chalice/config.json" := PyJson.dumps config;
           "/usr/local/bin/chalice" := "#!/usr/bin/python3" ]};
  os_environ := {[ "PATH" := "/usr/local/bin:/usr/bin" ]};
  os_getcwd := "/work";
  uuid_count := 0;
  trace := [];
|}.

Definition self : Chalice := {|
  source_dir := "app";
  stage_name := "prod";
  stage_config := [("api_gateway_stage", JStr "v1")];
  docker_config := None;
|}.

(** The world after a build into [out]. *)
Definition world_built : World := with_fs (built "out" (fs world)) world.

Definition docker : DockerConfig :=
  DockerConfig_init host (Some "") (Some ∅) (Some ["pip install chalice"]).

(** The archive without the manifest, and with a manifest cut short. *)
Definition world_archive_only : World :=
  with_fs (<["out/deployment.zip" := "PK-archive"]> (fs world)) world.

Definition world_malformed : World :=
  with_fs (<["out/sam.json" := "{"]> (fs world_archive_only)) world_archive_only.

(** A configuration file padded with blank lines, longer than any text the
    merge writes back into it. *)
Definition long_text : string :=
  PyJson.dumps (JObj [("stages", JObj [])]) +:+ PyJson.nl +:+ PyJson.spaces 200.

Definition world_long : World :=
  with_fs (<["app/.chalice/config.json" := long_text]> (fs world)) world.

(** The world whose configuration file holds [text]. *)
Definition world_config (text : string) : World :=
  with_fs (<["app/.chalice/config.json" := text]> (fs world)) world.

(** An application whose source directory holds no configuration. *)
Definition self_elsewhere : Chalice := {|
  source_dir := "other";
  stage_name := "prod";
  stage_config := [("api_gateway_stage", JStr "v1")];
  docker_config := None;
|}.

(** The world after a build into [out] that left the manifest [j]. *)
Definition world_manifest (j : json) : World :=
  with_fs (<["out/sam.json" := PyJson.dumps j]> (fs world_archive_only))
    world_archive_only.

(** A function without [Properties] before a resource without [Type]; a
    function without [Properties] after a table. *)
Definition manifest_no_type : json :=
  JObj [("Resources",
         JObj [("Handler", JObj [("Type", JStr "AWS::Serverless::Function")]);
               ("Table", JObj [])])].

Definition manifest_no_properties : json :=
  JObj [("Resources",
         JObj [("Table", JObj [("Type", JStr "AWS::DynamoDB::Table")]);
               ("Handler", JObj [("Type", JStr "AWS::Serverless::Function")])])].

(** The application built in a container. *)
Definition self_docker : Chalice := {|
  source_dir := "app";
  stage_name := "prod";
  stage_config := [("api_gateway_stage", JStr "v1")];
  docker_config := Some docker;
|}.

(** No [chalice] on the search path. *)
Definition world_no_chalice : World :=
  with_fs (delete "/usr/local/bin/chalice" (fs world)) world.

(** A caller that chose its region. *)
Definition world_region : World := {|
  fs := fs world;
  os_environ := <["AWS_DEFAULT_REGION" := "eu-west-1"]> (os_environ world);
  os_getcwd := "/work";
  uuid_count := 0;
  trace := [];
|}.

End Example.

(** ** Vocabulary of the further properties *)

(** The configuration document after the merge of the stage of [self]. *)
Definition merged (self : Chalice) (config stages : dict) : json :=
  JObj (Dict.set "stages"
          (JObj (Dict.set (stage_name self) (JObj (stage_config self)) stages))
          config).

(** The number of double quotes in a string. *)
Fixpoint count_dquote (s : string) : nat :=
  match s with
  | EmptyString => 0
  | String c s' =>
      (if Ascii.eqb c (ascii_of_nat 34) then 1 else 0) + count_dquote s'
  end.

(** [v['Type']] can be read. *)
Definition has_type (v : json) : bool :=
  match subscript v "Type" with
  | Ok _ => true
  | Raise _ => false
  end.

(** The world that a successful merge leaves. *)
Definition after_merge (host : Host) (self : Chalice) (config stages : dict)
    (w : World) : World :=
  mkWorld
    (<[config_path self := json_dumps host (merged self config stages)]> (fs w))
    (os_environ w) (os_getcwd w) (uuid_count w)
    (trace w ++ [EvOpen (config_path self) "r+";
                 EvWriteFile (config_path self);
                 EvWriteFile (config_path self)]).

(** What the local build does when it is started after the merge: it sees
    the merged configuration file. *)
Definition local_build (host : Host) (self : Chalice) (config stages : dict)
    (w : World) : gmap string string * result Z :=
  let w1 := after_merge host self config stages w in
  subprocess_run host (local_command host self (chosen_dir host w) w1)
    (source_dir self) (local_env w) (fs w1).

(** The events of the local runner started after the merge. *)
Definition local_events (host : Host) (self : Chalice) (config stages : dict)
    (w : World) : list event :=
  [EvWhich "chalice";
   EvPrint ("Packaging Chalice app for " +:+ stage_name self);
   EvSubprocessRun
     (local_command host self (chosen_dir host w)
        (after_merge host self config stages w))
     (source_dir self) (local_env w)].

(** [Chalice(scope, id, source_dir=..., stage_config=..., docker_config=...)]
    for the fields of [self]. *)
Definition construct (host : Host) (self : Chalice) : M Chalice :=
  Chalice_init host (stage_name self) (source_dir self) (stage_config self)
    (docker_config self).

(** What the container runtime does when it is started after the merge. *)
Definition container_build (host : Host) (self : Chalice) (dc : DockerConfig)
    (config stages : dict) (w : World) : gmap string string * option exn :=
  containers_run host (image dc) (docker_command self dc) (env dc) true
    (docker_volumes self (chosen_dir host w)) "/app"
    (fs (after_merge host self config stages w)).

(** ** [DockerConfig.__init__] with its dictionaries as objects

    The environment that a caller passes is an object that the caller still
    holds.  Here the dictionaries live in a heap and are named by
    references, so that what the constructor does to the caller's own
    dictionary can be seen. *)

Module Refs.

Abbreviation heap := (gmap nat (gmap string string)).

Record DockerConfigRef : Type := mkDockerConfigRef {
  image : string;
  env : nat;                        (* the dictionary that [self.env] names *)
  init_commands : list string;
}.

(** [{}]: a new, empty dictionary. *)
Definition new_dict (h : heap) : nat * heap :=
  (fresh (dom h), <[fresh (dom h) := ∅]> h).

(** [DockerConfig.__init__]; [env] is [None] or the reference the caller
    passes.  A reference that names nothing reads as an empty dictionary. *)
Definition DockerConfig_init (host : Host) (image : option string)
    (env : option nat) (init_commands : option (list string)) (h : heap)
    : DockerConfigRef * heap :=
  let self_image :=
    match image with
    | None | Some "" => default_image host
    | Some i => i
    end in
  (* [self.env = env or {}] *)
  let '(self_env, h) :=
    match env with
    | None => new_dict h
    | Some r => if decide (h !!! r = ∅) then new_dict h else (r, h)
    end in
  (* [self.env.setdefault('AWS_DEFAULT_REGION', 'us-east-1')] *)
  let h := <[self_env := setdefault "AWS_DEFAULT_REGION" "us-east-1" (h !!! self_env)]> h in
  let init_commands :=
    match init_commands with
    | None | Some [] => []
    | Some l => l
    end in
  (mkDockerConfigRef self_image self_env init_commands, h).

End Refs.

(** * Properties *)

(** ** Strings and dictionaries *)

Lemma app_cons (c : ascii) (a b : string) : String c a +:+ b = String c (a +:+ b).
Proof. reflexivity. Qed.

Lemma app_nil_l (a : string) : EmptyString +:+ a = a.
Proof. reflexivity. Qed.

Lemma take_app_length (d r : string) : Str.take (String.length d) (d +:+ r) = d.
Proof.
  induction d as [|c d IH]; [by destruct r|].
  rewrite app_cons. simpl. by rewrite IH.
Qed.

Lemma Str_drop_0 (s : string) : Str.drop 0 s = s.
Proof. by destruct s. Qed.

Lemma take_0 (s : string) : Str.take 0 s = EmptyString.
Proof. by destruct s. Qed.

Lemma app_assoc_str (a b c : string) : (a +:+ b) +:+ c = a +:+ b +:+ c.
Proof. induction a as [|x a IH]; [done|]. by rewrite !app_cons, IH. Qed.

Lemma app_empty_r (a : string) : a +:+ EmptyString = a.
Proof. induction a as [|x a IH]; [done|]. by rewrite app_cons, IH. Qed.

Lemma eqb_false_ne (a b : string) : a ≠ b → String.eqb a b = false.
Proof. intros. by apply String.eqb_neq. Qed.

Lemma get_set_eq (k : string) (v : json) (d : dict) :
  Dict.get k (Dict.set k v d) = Some v.
Proof.
  induction d as [|[k' v'] d IH]; simpl.
  - by rewrite String.eqb_refl.
  - destruct (String.eqb k k') eqn:E; simpl; rewrite E; [done|apply IH].
Qed.

Lemma get_set_ne (k k' : string) (v : json) (d : dict) :
  k ≠ k' → Dict.get k' (Dict.set k v d) = Dict.get k' d.
Proof.
  intros Hne. induction d as [|[k0 v0] d IH]; simpl.
  - rewrite eqb_false_ne; [done|congruence].
  - destruct (String.eqb k k0) eqn:E; simpl; [|by rewrite IH].
    apply String.eqb_eq in E as <-. by rewrite eqb_false_ne by congruence.
Qed.

Lemma keys_set_present (k : string) (v x : json) (d : dict) :
  Dict.get k d = Some x → Dict.keys (Dict.set k v d) = Dict.keys d.
Proof.
  unfold Dict.keys. induction d as [|[k0 v0] d IH]; simpl; [done|].
  destruct (String.eqb k k0) eqn:E; csimpl; [done|].
  intros. f_equal. by apply IH.
Qed.

Lemma keys_set_absent (k : string) (v : json) (d : dict) :
  Dict.get k d = None → Dict.keys (Dict.set k v d) = Dict.keys d ++ [k].
Proof.
  unfold Dict.keys. induction d as [|[k0 v0] d IH]; simpl; [done|].
  destruct (String.eqb k k0) eqn:E; csimpl; [done|].
  intros. f_equal. by apply IH.
Qed.

(** The other entries of a dictionary keep their place and their value
    through [Dict.set]. *)
Lemma set_elsewhere (k : string) (v : json) (d : dict) (i : nat) (k' : string) (x : json) :
  d !! i = Some (k', x) → k' ≠ k → Dict.set k v d !! i = Some (k', x).
Proof.
  revert i. induction d as [|[k0 v0] d IH]; intros i Hi Hne; [done|].
  simpl. destruct (String.eqb k k0) eqn:E.
  - apply String.eqb_eq in E as <-. destruct i; simpl in *; [congruence|done].
  - destruct i; simpl in *; [done|by apply IH].
Qed.

(** ** Running the monad *)

Lemma bind_ok {A B} (m : M A) (k : A → M B) (w w' : World) (a : A) :
  m w = (Ok a, w') → bind m k w = k a w'.
Proof. unfold bind. by intros ->. Qed.

Lemma bind_raise {A B} (m : M A) (k : A → M B) (w w' : World) (e : exn) :
  m w = (Raise e, w') → bind m k w = (Raise e, w').
Proof. unfold bind. by intros ->. Qed.

Lemma open_ok (path mode c : string) (w : World) :
  fs w !! path = Some c →
  open path mode w = (Ok (mkFile path 0), log (EvOpen path mode) w).
Proof. intros H. unfold open, bind, emit, get_world. simpl. by rewrite H. Qed.

Lemma open_missing (path mode : string) (w : World) :
  fs w !! path = None →
  open path mode w = (Raise (FileNotFoundError path), log (EvOpen path mode) w).
Proof. intros H. unfold open, bind, emit, get_world. simpl. by rewrite H. Qed.

Lemma json_load_ok (host : Host) (f : file) (c : string) (j : json) (w : World) :
  fs w !! f_path f = Some c →
  json_loads host (Str.drop (f_pos f) c) = Some j →
  json_load host f w = (Ok (j, mkFile (f_path f) (String.length c)), w).
Proof.
  intros Hc Hj. unfold json_load, f_read, contents, bind, get_world, ret.
  rewrite Hc. simpl. by rewrite Hj.
Qed.

Lemma json_load_malformed (host : Host) (f : file) (c : string) (w : World) :
  fs w !! f_path f = Some c →
  json_loads host (Str.drop (f_pos f) c) = None →
  json_load host f w = (Raise JSONDecodeError, w).
Proof.
  intros Hc Hj. unfold json_load, f_read, contents, bind, get_world, ret.
  rewrite Hc. simpl. by rewrite Hj.
Qed.

Lemma f_write_ok (f : file) (data c : string) (w : World) :
  fs w !! f_path f = Some c →
  f_write f data w =
    (Ok (mkFile (f_path f) (f_pos f + String.length data)),
     with_fs (<[f_path f := Str.take (f_pos f) c +:+ data
                             +:+ Str.drop (f_pos f + String.length data) c]> (fs w))
       (log (EvWriteFile (f_path f)) w)).
Proof.
  intros Hc. unfold f_write, contents, bind, get_world, emit, ret.
  by rewrite Hc.
Qed.

Lemma f_truncate_ok (f : file) (c : string) (w : World) :
  fs w !! f_path f = Some c →
  f_truncate f w =
    (Ok tt, with_fs (<[f_path f := Str.take (f_pos f) c]> (fs w))
              (log (EvWriteFile (f_path f)) w)).
Proof.
  intros Hc. unfold f_truncate, contents, bind, get_world, emit, ret.
  by rewrite Hc.
Qed.

Lemma lift_run {A} (r : result A) (w : World) : lift r w = (r, w).
Proof. reflexivity. Qed.

(** ** The stage-configuration merge *)

(** The file written by seek, write and truncate holds the new text only,
    whatever the length of the old one. *)
Lemma rewrite_from_start (old new : string) :
  Str.take (0 + String.length new)
    (Str.take 0 old +:+ new +:+ Str.drop (0 + String.length new) old) = new.
Proof. rewrite take_0, app_nil_l. simpl. apply take_app_length. Qed.

(** C1. When the configuration file parses to an object that holds a
    [stages] object, and the text written back reads as the document it was
    made from, [_create_stage_with_config] returns normally; the file then
    parses to an object whose [stages] entry maps the stage name to the
    stage configuration, whose other top-level entries and other stages are
    those of before, with the keys in their former order (a new stage name
    goes last); no other file is touched. *)
Theorem create_stage_with_config_merge (host : Host) (self : Chalice) (w : World)
    (text : string) (config stages : dict) :
  fs w !! config_path self = Some text →
  json_loads host text = Some (JObj config) →
  Dict.get "stages" config = Some (JObj stages) →
  (let merged :=
     JObj (Dict.set "stages"
             (JObj (Dict.set (stage_name self) (JObj (stage_config self)) stages))
             config) in
   json_loads host (json_dumps host merged) = Some merged) →
  ∃ (w' : World) (text' : string) (config' stages' : dict),
    _create_stage_with_config host self w = (Ok tt, w')
    ∧ fs w' !! config_path self = Some text'
    ∧ json_loads host text' = Some (JObj config')
    ∧ Dict.get "stages" config' = Some (JObj stages')
    ∧ Dict.get (stage_name self) stages' = Some (JObj (stage_config self))
    ∧ (∀ k, k ≠ "stages" → Dict.get k config' = Dict.get k config)
    ∧ (∀ s, s ≠ stage_name self → Dict.get s stages' = Dict.get s stages)
    ∧ Dict.keys config' = Dict.keys config
    ∧ Dict.keys stages' =
        match Dict.get (stage_name self) stages with
        | Some _ => Dict.keys stages
        | None => Dict.keys stages ++ [stage_name self]
        end
    ∧ (∀ p, p ≠ config_path self → fs w' !! p = fs w !! p).
Proof.
  intros Hfile Hload Hstages Hround.
  set (stages' := Dict.set (stage_name self) (JObj (stage_config self)) stages) in *.
  set (config' := Dict.set "stages" (JObj stages') config) in *.
  eexists _, (json_dumps host (JObj config')), config', stages'.
  split_and!.
  - unfold _create_stage_with_config.
    erewrite bind_ok by (eapply open_ok, Hfile).
    erewrite bind_ok by (eapply json_load_ok; [exact Hfile|by rewrite Str_drop_0]).
    unfold subscript. rewrite Hstages. simpl.
    erewrite bind_ok by apply lift_run.
    erewrite bind_ok by apply lift_run.
    erewrite bind_ok by apply lift_run.
    erewrite bind_ok by reflexivity.
    erewrite bind_ok by (eapply f_write_ok, Hfile).
    erewrite f_truncate_ok by (simpl; apply lookup_insert_eq).
    reflexivity.
  - simpl. rewrite lookup_insert_eq. f_equal. apply rewrite_from_start.
  - exact Hround.
  - apply get_set_eq.
  - apply get_set_eq.
  - intros k Hk. apply get_set_ne. congruence.
  - intros s Hs. apply get_set_ne. congruence.
  - eapply keys_set_present, Hstages.
  - destruct (Dict.get (stage_name self) stages) eqn:E.
    + eapply keys_set_present, E.
    + by apply keys_set_absent.
  - intros p Hp. simpl. by rewrite !lookup_insert_ne.
Qed.

Lemma create_stage_with_config_merge_witness :
  ∃ (w' : World) (text' : string) (config' stages' : dict),
    _create_stage_with_config Example.host Example.self Example.world = (Ok tt, w')
    ∧ fs w' !! "app/.chalice/config.json" = Some text'
    ∧ json_loads Example.host text' = Some (JObj config')
    ∧ Dict.get "stages" config' = Some (JObj stages')
    ∧ Dict.get "prod" stages' = Some (JObj [("api_gateway_stage", JStr "v1")])
    ∧ Dict.get "dev" stages' = Some (JObj [("api_gateway_stage", JStr "api")])
    ∧ Dict.get "app_name" config' = Some (JStr "demo")
    ∧ Dict.keys stages' = ["dev"; "prod"].
Proof.
  destruct (create_stage_with_config_merge Example.host Example.self Example.world
              (PyJson.dumps Example.config)
              [("version", JStr "2.0"); ("app_name", JStr "demo");
               ("stages", JObj [("dev", JObj [("api_gateway_stage", JStr "api")])])]
              [("dev", JObj [("api_gateway_stage", JStr "api")])])
    as (w' & text' & config' & stages' & Hrun & Hfile & Hload & Hst & Hprod
        & Htop & Hother & _ & Hkeys & _).
  - vm_compute. reflexivity.
  - vm_compute. reflexivity.
  - vm_compute. reflexivity.
  - vm_compute. reflexivity.
  - exists w', text', config', stages'. split_and!.
    + exact Hrun.
    + exact Hfile.
    + exact Hload.
    + exact Hst.
    + exact Hprod.
    + rewrite Hother; [reflexivity|discriminate].
    + rewrite Htop; [reflexivity|discriminate].
    + exact Hkeys.
Defined.

(** ** The template rewrite *)

Lemma resource_ok_inv (v : json) :
  resource_ok v = true →
  ∃ d type, v = JObj d ∧ Dict.get "Type" d = Some type
    ∧ is_function v = eq_str type function_type
    ∧ (eq_str type function_type = true →
       ∃ p, Dict.get "Properties" d = Some (JObj p)).
Proof.
  destruct v as [| | | | | |d]; try done. simpl.
  destruct (Dict.get "Type" d) as [type|] eqn:Ht; [|done].
  intros Hok. exists d, type. split_and!; try done.
  - unfold is_function. simpl. by rewrite Ht.
  - intros Hf. rewrite Hf in Hok.
    destruct (Dict.get "Properties" d) as [[| | | | | |p]|]; try done. by exists p.
Qed.

Lemma set_code_uri_function (a : Asset) (d p : dict) :
  Dict.get "Properties" d = Some (JObj p) →
  set_code_uri a (JObj d) =
    Ok (JObj (Dict.set "Properties" (JObj (Dict.set "CodeUri" (code_uri a) p)) d)).
Proof. intros Hp. unfold set_code_uri. simpl. by rewrite Hp. Qed.

(** The comprehension and the loop together: every function resource is
    rewritten where it stands, the other resources stay. *)
Lemma rewrite_resources (a : Asset) (resources : dict) (i : nat) :
  forallb (λ kv, resource_ok kv.2) resources = true →
  ∃ functions,
    select_functions i resources = Ok functions
    ∧ ∀ done_ : dict, List.length done_ = i →
        update_functions a functions (done_ ++ resources)
        = Ok (done_ ++ (prod_map id (rewritten a) <$> resources)).
Proof.
  revert i. induction resources as [|[k v] rs IH]; intros i Hall.
  - exists []. split; [done|]. intros pre _. by rewrite !app_nil_r.
  - simpl in Hall. apply andb_prop in Hall as [Hv Hrs].
    destruct (resource_ok_inv v Hv) as (d & type & -> & Ht & Hfun & Hprops).
    destruct (IH (S i) Hrs) as (l & Hsel & Hupd).
    simpl. rewrite Ht, Hsel.
    eexists. split; [reflexivity|].
    intros pre Hlen. csimpl. unfold rewritten at 1. rewrite Hfun.
    destruct (eq_str type function_type) eqn:Hf.
    + destruct (Hprops eq_refl) as [p Hp].
      simpl. rewrite <- Hlen, list_lookup_middle by done.
      rewrite (set_code_uri_function a d p Hp).
      rewrite insert_app_r_alt, Nat.sub_diag by lia. simpl.
      rewrite cons_middle, app_assoc, Hupd by (rewrite length_app; simpl; lia).
      by rewrite <- app_assoc.
    + rewrite cons_middle, app_assoc, Hupd by (rewrite length_app; simpl; lia).
      by rewrite <- app_assoc.
Qed.

Lemma Asset_new_ok (host : Host) (id path archive : string) (w : World) :
  fs w !! path = Some archive →
  Asset_new host id path w = (Ok (asset_location host path archive), log (EvAsset id path) w).
Proof. intros H. unfold Asset_new, bind, get_world, emit, ret. by rewrite H. Qed.

Lemma Asset_new_missing (host : Host) (id path : string) (w : World) :
  fs w !! path = None →
  Asset_new host id path w = (Raise (AssetPathError path), w).
Proof. intros H. unfold Asset_new, bind, get_world, raise. by rewrite H. Qed.

(** The run of the rewrite on a manifest it can process. *)
Lemma update_sam_template_run (host : Host) (sam_package_dir : string) (w : World)
    (archive text : string) (template resources : dict) :
  fs w !! deployment_zip_path sam_package_dir = Some archive →
  fs w !! sam_template_path sam_package_dir = Some text →
  json_loads host text = Some (JObj template) →
  Dict.get "Resources" template = Some (JObj resources) →
  forallb (λ kv, resource_ok kv.2) resources = true →
  _update_sam_template host sam_package_dir w =
    (Ok (JObj (Dict.set "Resources"
                 (JObj (prod_map id
                          (rewritten (asset_location host
                                        (deployment_zip_path sam_package_dir) archive))
                          <$> resources))
                 template)),
     log (EvOpen (sam_template_path sam_package_dir) "r")
       (log (EvAsset "ChaliceAppCode" (deployment_zip_path sam_package_dir)) w)).
Proof.
  intros Hzip Hsam Hload Hres Hok.
  destruct (rewrite_resources
              (asset_location host (deployment_zip_path sam_package_dir) archive)
              resources 0 Hok) as (l & Hsel & Hupd).
  specialize (Hupd [] eq_refl). simpl in Hupd.
  unfold _update_sam_template.
  erewrite bind_ok by (eapply Asset_new_ok, Hzip).
  erewrite bind_ok by (eapply open_ok; simpl; exact Hsam).
  erewrite bind_ok by (eapply json_load_ok; simpl; [exact Hsam|exact Hload]).
  simpl. rewrite Hres.
  erewrite bind_ok by apply lift_run. simpl.
  erewrite bind_ok by apply lift_run. rewrite Hsel.
  erewrite bind_ok by apply lift_run. rewrite Hupd.
  erewrite bind_ok by apply lift_run.
  reflexivity.
Qed.

Lemma forallb_lookup {A} (f : A → bool) (l : list A) (i : nat) (x : A) :
  forallb f l = true → l !! i = Some x → f x = true.
Proof.
  revert i. induction l as [|y l IH]; intros i Hall Hi; [done|].
  simpl in Hall. apply andb_prop in Hall as [Hy Hl].
  destruct i; simpl in Hi; [by simplify_eq|by eapply IH].
Qed.

Lemma rewritten_other (a : Asset) (v : json) :
  is_function v = false → rewritten a v = v.
Proof. unfold rewritten. by intros ->. Qed.

Lemma rewritten_function (a : Asset) (v : json) :
  resource_ok v = true → is_function v = true →
  ∃ d p, v = JObj d ∧ Dict.get "Properties" d = Some (JObj p)
    ∧ rewritten a v =
        JObj (Dict.set "Properties" (JObj (Dict.set "CodeUri" (code_uri a) p)) d).
Proof.
  intros Hok Hfun.
  destruct (resource_ok_inv v Hok) as (d & type & -> & _ & Hf & Hprops).
  rewrite Hfun in Hf. destruct (Hprops (eq_sym Hf)) as [p Hp].
  exists d, p. split_and!; [done..|].
  unfold rewritten. by rewrite Hfun, (set_code_uri_function a d p Hp).
Qed.

(** C2. On a manifest whose resources each carry a [Type], the functions
    among them a [Properties] object, [_update_sam_template] returns the
    manifest after creating the asset for [deployment.zip] once and no
    other; every function resource, wherever it stands among the
    resources, then has [Properties.CodeUri] equal to the [Bucket]/[Key]
    object of that one asset. *)
Theorem update_sam_template_code_uri (host : Host) (sam_package_dir : string)
    (w : World) (archive text : string) (template resources : dict) :
  fs w !! deployment_zip_path sam_package_dir = Some archive →
  fs w !! sam_template_path sam_package_dir = Some text →
  json_loads host text = Some (JObj template) →
  Dict.get "Resources" template = Some (JObj resources) →
  forallb (λ kv, resource_ok kv.2) resources = true →
  ∃ (w' : World) (template' resources' : dict) (new : list event),
    _update_sam_template host sam_package_dir w = (Ok (JObj template'), w')
    ∧ trace w' = trace w ++ new
    ∧ List.filter is_asset new =
        [EvAsset "ChaliceAppCode" (deployment_zip_path sam_package_dir)]
    ∧ Dict.get "Resources" template' = Some (JObj resources')
    ∧ List.length resources' = List.length resources
    ∧ ∀ (i : nat) (name : string) (r : json),
        resources !! i = Some (name, r) → is_function r = true →
        ∃ r' properties,
          resources' !! i = Some (name, r')
          ∧ is_function r' = true
          ∧ subscript r' "Properties" = Ok properties
          ∧ subscript properties "CodeUri" =
              Ok (JObj [("Bucket", JStr (s3_bucket_name
                           (asset_location host (deployment_zip_path sam_package_dir)
                              archive)));
                        ("Key", JStr (s3_object_key
                           (asset_location host (deployment_zip_path sam_package_dir)
                              archive)))]).
Proof.
  intros Hzip Hsam Hload Hres Hok.
  eexists _, _, _, [_; _]. split_and!.
  - by eapply update_sam_template_run.
  - simpl. by rewrite <- app_assoc.
  - reflexivity.
  - apply get_set_eq.
  - apply length_fmap.
  - intros i name r Hi Hfun.
    pose proof (forallb_lookup _ _ _ _ Hok Hi) as Hr. simpl in Hr.
    destruct (rewritten_function
                (asset_location host (deployment_zip_path sam_package_dir) archive)
                r Hr Hfun) as (d & p & -> & Hp & Hrw).
    eexists _, _. split_and!.
    + rewrite list_lookup_fmap, Hi. simpl. by rewrite Hrw.
    + revert Hfun. unfold is_function. simpl.
      rewrite get_set_ne by discriminate. done.
    + simpl. by rewrite get_set_eq.
    + simpl. by rewrite get_set_eq.
Qed.

Lemma update_sam_template_code_uri_witness :
  ∃ (w' : World) (template' resources' : dict),
    _update_sam_template Example.host "out" Example.world_built = (Ok (JObj template'), w')
    ∧ List.filter is_asset (trace w') = [EvAsset "ChaliceAppCode" "out/deployment.zip"]
    ∧ Dict.get "Resources" template' = Some (JObj resources')
    ∧ ∃ r' properties,
        resources' !! 2 = Some ("Worker", r')
        ∧ subscript r' "Properties" = Ok properties
        ∧ subscript properties "CodeUri" =
            Ok (JObj [("Bucket", JStr "cdk-staging-bucket");
                      ("Key", JStr "assets/PK-archive")]).
Proof.
  destruct (update_sam_template_code_uri Example.host "out" Example.world_built
              "PK-archive" (PyJson.dumps Example.manifest)
              [("AWSTemplateFormatVersion", JStr "2010-09-09");
               ("Resources",
                JObj [("APIHandler",
                       JObj [("Type", JStr "AWS::Serverless::Function");
                             ("Properties",
                              JObj [("Runtime", JStr "python3.7");
                                    ("CodeUri", JStr "./deployment.zip");
                                    ("Timeout", JInt 60)])]);
                      ("RestAPI",
                       JObj [("Type", JStr "AWS::Serverless::Api");
                             ("Properties", JObj [("StageName", JStr "api")])]);
                      ("Worker",
                       JObj [("Properties", JObj [("Handler", JStr "app.worker")]);
                             ("Type", JStr "AWS::Serverless::Function")])])]
              [("APIHandler",
                JObj [("Type", JStr "AWS::Serverless::Function");
                      ("Properties",
                       JObj [("Runtime", JStr "python3.7");
                             ("CodeUri", JStr "./deployment.zip");
                             ("Timeout", JInt 60)])]);
               ("RestAPI",
                JObj [("Type", JStr "AWS::Serverless::Api");
                      ("Properties", JObj [("StageName", JStr "api")])]);
               ("Worker",
                JObj [("Properties", JObj [("Handler", JStr "app.worker")]);
                      ("Type", JStr "AWS::Serverless::Function")])])
    as (w' & template' & resources' & new & Hrun & Htrace & Hassets & Hres & _ & Hfun).
  - vm_compute. reflexivity.
  - vm_compute. reflexivity.
  - vm_compute. reflexivity.
  - vm_compute. reflexivity.
  - vm_compute. reflexivity.
  - destruct (Hfun 2 "Worker"
                (JObj [("Properties", JObj [("Handler", JStr "app.worker")]);
                       ("Type", JStr "AWS::Serverless::Function")])
                eq_refl eq_refl) as (r' & properties & Hr' & _ & Hp & Huri).
    exists w', template', resources'. split_and!.
    + exact Hrun.
    + rewrite Htrace. exact Hassets.
    + exact Hres.
    + exists r', properties. split_and!; [exact Hr'|exact Hp|exact Huri].
Defined.

Lemma bind_lift {A B} (r : result A) (k : A → M B) (w : World) :
  bind (lift r) k w = match r with Ok a => k a w | Raise e => (Raise e, w) end.
Proof. unfold bind, lift. by destruct r. Qed.

(** Whatever the files hold, the rewrite ends in the world it started in,
    with the asset and the opening of the manifest added to the trace when
    the archive is there. *)
Lemma update_sam_template_world (host : Host) (sam_package_dir : string) (w : World) :
  (_update_sam_template host sam_package_dir w).2 =
    match fs w !! deployment_zip_path sam_package_dir with
    | None => w
    | Some _ =>
        log (EvOpen (sam_template_path sam_package_dir) "r")
          (log (EvAsset "ChaliceAppCode" (deployment_zip_path sam_package_dir)) w)
    end.
Proof.
  unfold _update_sam_template.
  destruct (fs w !! deployment_zip_path sam_package_dir) as [archive|] eqn:Hzip.
  2: { by erewrite bind_raise by (eapply Asset_new_missing, Hzip). }
  erewrite bind_ok by (eapply Asset_new_ok, Hzip).
  destruct (fs w !! sam_template_path sam_package_dir) as [text|] eqn:Hsam.
  2: { by erewrite bind_raise by (eapply open_missing; simpl; exact Hsam). }
  erewrite bind_ok by (eapply open_ok; simpl; exact Hsam).
  destruct (json_loads host text) as [j|] eqn:Hload.
  2: { by erewrite bind_raise
         by (eapply json_load_malformed; simpl; [exact Hsam|exact Hload]). }
  erewrite bind_ok by (eapply json_load_ok; simpl; [exact Hsam|exact Hload]).
  simpl. rewrite bind_lift. destruct (subscript j "Resources"); [|done].
  rewrite bind_lift. destruct (items _); [|done].
  rewrite bind_lift. destruct (select_functions _ _); [|done].
  rewrite bind_lift. destruct (update_functions _ _ _); [|done].
  done.
Qed.

(** C3. [_update_sam_template] never changes a file nor writes to one,
    whatever the manifest.  On a manifest it can process it returns the
    manifest with: the top-level entries other than [Resources] as they
    were; the resources under their names and in their order; every
    resource that is not a function as it was; and in every function the
    fields other than [Properties], and in its [Properties] the fields other
    than [CodeUri], as they were. *)
Theorem update_sam_template_frame (host : Host) (sam_package_dir : string) (w : World) :
  fs (_update_sam_template host sam_package_dir w).2 = fs w
  ∧ (∃ new, trace (_update_sam_template host sam_package_dir w).2 = trace w ++ new
            ∧ List.filter is_write new = [])
  ∧ ∀ (archive text : string) (template resources : dict),
      fs w !! deployment_zip_path sam_package_dir = Some archive →
      fs w !! sam_template_path sam_package_dir = Some text →
      json_loads host text = Some (JObj template) →
      Dict.get "Resources" template = Some (JObj resources) →
      forallb (λ kv, resource_ok kv.2) resources = true →
      ∃ template' resources' : dict,
        (_update_sam_template host sam_package_dir w).1 = Ok (JObj template')
        ∧ Dict.keys template' = Dict.keys template
        ∧ (∀ k, k ≠ "Resources" → Dict.get k template' = Dict.get k template)
        ∧ Dict.get "Resources" template' = Some (JObj resources')
        ∧ Dict.keys resources' = Dict.keys resources
        ∧ (∀ (i : nat) (name : string) (r : json),
             resources !! i = Some (name, r) → is_function r = false →
             resources' !! i = Some (name, r))
        ∧ (∀ (i : nat) (name : string) (r : json),
             resources !! i = Some (name, r) → is_function r = true →
             ∃ d d' p p' : dict,
               r = JObj d
               ∧ resources' !! i = Some (name, JObj d')
               ∧ Dict.keys d' = Dict.keys d
               ∧ (∀ f, f ≠ "Properties" → Dict.get f d' = Dict.get f d)
               ∧ Dict.get "Properties" d = Some (JObj p)
               ∧ Dict.get "Properties" d' = Some (JObj p')
               ∧ (∀ f, f ≠ "CodeUri" → Dict.get f p' = Dict.get f p)
               ∧ (∀ (j : nat) (f : string) (x : json),
                    p !! j = Some (f, x) → f ≠ "CodeUri" → p' !! j = Some (f, x))).
Proof.
  split_and!.
  - rewrite update_sam_template_world. by destruct (fs w !! _).
  - rewrite update_sam_template_world. destruct (fs w !! _).
    + exists [EvAsset "ChaliceAppCode" (deployment_zip_path sam_package_dir);
              EvOpen (sam_template_path sam_package_dir) "r"].
      simpl. by rewrite <- app_assoc.
    + exists []. by rewrite app_nil_r.
  - intros archive text template resources Hzip Hsam Hload Hres Hok.
    erewrite update_sam_template_run by done.
    eexists _, _. split_and!.
    + reflexivity.
    + eapply keys_set_present, Hres.
    + intros k Hk. apply get_set_ne. congruence.
    + apply get_set_eq.
    + unfold Dict.keys. rewrite <- list_fmap_compose. by apply list_fmap_ext; intros ? [].
    + intros i name r Hi Hfun.
      rewrite list_lookup_fmap, Hi. simpl. by rewrite rewritten_other.
    + intros i name r Hi Hfun.
      pose proof (forallb_lookup _ _ _ _ Hok Hi) as Hr. simpl in Hr.
      destruct (rewritten_function
                  (asset_location host (deployment_zip_path sam_package_dir) archive)
                  r Hr Hfun) as (d & p & -> & Hp & Hrw).
      eexists d, _, p, _. split_and!.
      * reflexivity.
      * rewrite list_lookup_fmap, Hi. simpl. by rewrite Hrw.
      * eapply keys_set_present, Hp.
      * intros f Hf. apply get_set_ne. congruence.
      * exact Hp.
      * apply get_set_eq.
      * intros f Hf. apply get_set_ne. congruence.
      * intros j f x Hj Hf. by apply set_elsewhere.
Qed.

Lemma update_sam_template_frame_witness :
  fs (_update_sam_template Example.host "out" Example.world_built).2
  = fs Example.world_built
  ∧ ∃ template' resources' : dict,
      (_update_sam_template Example.host "out" Example.world_built).1
      = Ok (JObj template')
      ∧ Dict.get "AWSTemplateFormatVersion" template' = Some (JStr "2010-09-09")
      ∧ Dict.get "Resources" template' = Some (JObj resources')
      ∧ resources' !! 1 =
          Some ("RestAPI",
                JObj [("Type", JStr "AWS::Serverless::Api");
                      ("Properties", JObj [("StageName", JStr "api")])])
      ∧ ∃ d' p' : dict,
          resources' !! 0 = Some ("APIHandler", JObj d')
          ∧ Dict.get "Type" d' = Some (JStr "AWS::Serverless::Function")
          ∧ Dict.get "Properties" d' = Some (JObj p')
          ∧ Dict.get "Runtime" p' = Some (JStr "python3.7")
          ∧ p' !! 2 = Some ("Timeout", JInt 60).
Proof.
  destruct (update_sam_template_frame Example.host "out" Example.world_built)
    as (Hfs & _ & Hframe).
  split; [exact Hfs|].
  destruct (Hframe "PK-archive" (PyJson.dumps Example.manifest)
              [("AWSTemplateFormatVersion", JStr "2010-09-09");
               ("Resources",
                JObj [("APIHandler",
                       JObj [("Type", JStr "AWS::Serverless::Function");
                             ("Properties",
                              JObj [("Runtime", JStr "python3.7");
                                    ("CodeUri", JStr "./deployment.zip");
                                    ("Timeout", JInt 60)])]);
                      ("RestAPI",
                       JObj [("Type", JStr "AWS::Serverless::Api");
                             ("Properties", JObj [("StageName", JStr "api")])]);
                      ("Worker",
                       JObj [("Properties", JObj [("Handler", JStr "app.worker")]);
                             ("Type", JStr "AWS::Serverless::Function")])])]
              [("APIHandler",
                JObj [("Type", JStr "AWS::Serverless::Function");
                      ("Properties",
                       JObj [("Runtime", JStr "python3.7");
                             ("CodeUri", JStr "./deployment.zip");
                             ("Timeout", JInt 60)])]);
               ("RestAPI",
                JObj [("Type", JStr "AWS::Serverless::Api");
                      ("Properties", JObj [("StageName", JStr "api")])]);
               ("Worker",
                JObj [("Properties", JObj [("Handler", JStr "app.worker")]);
                      ("Type", JStr "AWS::Serverless::Function")])])
    as (template' & resources' & Hrun & _ & Htop & Hres & _ & Hother & Hfun).
  - vm_compute. reflexivity.
  - vm_compute. reflexivity.
  - vm_compute. reflexivity.
  - vm_compute. reflexivity.
  - vm_compute. reflexivity.
  - destruct (Hfun 0 "APIHandler"
                (JObj [("Type", JStr "AWS::Serverless::Function");
                       ("Properties",
                        JObj [("Runtime", JStr "python3.7");
                              ("CodeUri", JStr "./deployment.zip");
                              ("Timeout", JInt 60)])])
                eq_refl eq_refl)
      as (d & d' & p & p' & Hd & Hr' & _ & Hfields & Hp & Hp' & Hprops & Hplace).
    injection Hd as <-. injection Hp as <-.
    exists template', resources'. split_and!.
    + exact Hrun.
    + rewrite Htop; [reflexivity|discriminate].
    + exact Hres.
    + apply (Hother 1 "RestAPI"); reflexivity.
    + exists d', p'. split_and!.
      * exact Hr'.
      * rewrite Hfields; [reflexivity|discriminate].
      * exact Hp'.
      * rewrite Hprops; [reflexivity|discriminate].
      * apply (Hplace 2 "Timeout"); [reflexivity|discriminate].
Defined.

(** C10. [_update_sam_template] creates the asset before it opens the
    manifest.  Without the archive it raises the asset's lookup error and
    leaves the world, trace included, as it was: the manifest is not
    opened.  With the archive, the trace gains the asset and then the
    opening of the manifest, whatever follows; when the manifest is missing
    or does not parse, the call raises and the asset stays in the trace. *)
Theorem update_sam_template_asset_first (host : Host) (sam_package_dir : string)
    (w : World) :
  (fs w !! deployment_zip_path sam_package_dir = None →
   _update_sam_template host sam_package_dir w
   = (Raise (AssetPathError (deployment_zip_path sam_package_dir)), w))
  ∧ (∀ archive, fs w !! deployment_zip_path sam_package_dir = Some archive →
       trace (_update_sam_template host sam_package_dir w).2
       = trace w ++ [EvAsset "ChaliceAppCode" (deployment_zip_path sam_package_dir);
                     EvOpen (sam_template_path sam_package_dir) "r"])
  ∧ (∀ archive, fs w !! deployment_zip_path sam_package_dir = Some archive →
       fs w !! sam_template_path sam_package_dir = None →
       (_update_sam_template host sam_package_dir w).1
       = Raise (FileNotFoundError (sam_template_path sam_package_dir)))
  ∧ (∀ archive text, fs w !! deployment_zip_path sam_package_dir = Some archive →
       fs w !! sam_template_path sam_package_dir = Some text →
       json_loads host text = None →
       (_update_sam_template host sam_package_dir w).1 = Raise JSONDecodeError).
Proof.
  split_and!.
  - intros Hzip. unfold _update_sam_template.
    by erewrite bind_raise by (eapply Asset_new_missing, Hzip).
  - intros archive Hzip. rewrite update_sam_template_world, Hzip.
    simpl. by rewrite <- app_assoc.
  - intros archive Hzip Hsam. unfold _update_sam_template.
    erewrite bind_ok by (eapply Asset_new_ok, Hzip).
    by erewrite bind_raise by (eapply open_missing; simpl; exact Hsam).
  - intros archive text Hzip Hsam Hload. unfold _update_sam_template.
    erewrite bind_ok by (eapply Asset_new_ok, Hzip).
    erewrite bind_ok by (eapply open_ok; simpl; exact Hsam).
    by erewrite bind_raise
      by (eapply json_load_malformed; simpl; [exact Hsam|exact Hload]).
Qed.

Lemma update_sam_template_asset_first_witness :
  _update_sam_template Example.host "out" Example.world
  = (Raise (AssetPathError "out/deployment.zip"), Example.world)
  ∧ trace (_update_sam_template Example.host "out" Example.world_built).2
    = [EvAsset "ChaliceAppCode" "out/deployment.zip"; EvOpen "out/sam.json" "r"]
  ∧ (_update_sam_template Example.host "out" Example.world_archive_only).1
    = Raise (FileNotFoundError "out/sam.json")
  ∧ (_update_sam_template Example.host "out" Example.world_malformed).1
    = Raise JSONDecodeError.
Proof.
  split_and!.
  - apply (update_sam_template_asset_first Example.host "out" Example.world).
    vm_compute. reflexivity.
  - apply (update_sam_template_asset_first Example.host "out" Example.world_built)
      with (archive := "PK-archive").
    vm_compute. reflexivity.
  - apply (update_sam_template_asset_first Example.host "out" Example.world_archive_only)
      with (archive := "PK-archive").
    + vm_compute. reflexivity.
    + vm_compute. reflexivity.
  - apply (update_sam_template_asset_first Example.host "out" Example.world_malformed)
      with (archive := "PK-archive") (text := "{").
    + vm_compute. reflexivity.
    + vm_compute. reflexivity.
    + vm_compute. reflexivity.
Defined.

(** ** The runners *)

Lemma foldl_insert_union (l : list (string * string)) (acc : gmap string string) :
  NoDup l.*1 →
  foldl (λ env kv, <[kv.1 := kv.2]> env) acc l = list_to_map l ∪ acc.
Proof.
  revert acc. induction l as [|[k v] l IH]; intros acc Hnd; simpl.
  - by rewrite (left_id_L ∅ (∪)).
  - apply NoDup_cons in Hnd as [Hk Hnd].
    rewrite IH by done. simpl.
    rewrite <- insert_union_l.
    by rewrite insert_union_r by (by apply not_elem_of_list_to_map_1).
Qed.

(** The loop over [os.environ.items()] builds a copy. *)
Lemma copy_environ_id (environ : gmap string string) : copy_environ environ = environ.
Proof.
  unfold copy_environ.
  rewrite foldl_insert_union by apply NoDup_fst_map_to_list.
  by rewrite (right_id_L ∅ (∪)), list_to_map_to_list.
Qed.

Lemma setdefault_region (caller : gmap string string) :
  region_defaulted caller (setdefault "AWS_DEFAULT_REGION" "us-east-1" caller).
Proof.
  unfold region_defaulted, setdefault.
  destruct (caller !! "AWS_DEFAULT_REGION") as [v|] eqn:E; split_and!.
  - by intros ? [= <-].
  - done.
  - done.
  - done.
  - intros _. apply lookup_insert_eq.
  - intros k Hk. by apply lookup_insert_ne.
Qed.

Lemma package_app_subprocess_run (host : Host) (self : Chalice)
    (sam_package_dir : string) (w : World) :
  _package_app_subprocess host self sam_package_dir w =
    let command := local_command host self sam_package_dir w in
    let outcome := subprocess_run host command (source_dir self) (local_env w) (fs w) in
    (match outcome.2 with
     | Ok _ => Ok tt
     | Raise e => Raise e
     end,
     with_fs outcome.1
       (log (EvSubprocessRun command (source_dir self) (local_env w))
          (log (EvPrint ("Packaging Chalice app for " +:+ stage_name self))
             (log (EvWhich "chalice") w)))).
Proof.
  unfold _package_app_subprocess, which, subprocess_run_, bind, emit, get_world, ret.
  simpl. rewrite copy_environ_id. fold (local_env w).
  fold (local_command host self sam_package_dir w).
  by destruct (subprocess_run _ _ _ _ _) as [files [rc|e]].
Qed.

Lemma package_app_container_run (host : Host) (self : Chalice) (dc : DockerConfig)
    (sam_package_dir : string) (w : World) :
  _package_app_container host self dc sam_package_dir w =
    match docker_from_env host (os_environ w) with
    | Some e => (Raise e, log EvDockerFromEnv w)
    | None =>
        let outcome :=
          containers_run host (image dc) (docker_command self dc) (env dc) true
            (docker_volumes self sam_package_dir) "/app" (fs w) in
        (match outcome.2 with
         | None => Ok tt
         | Some (DockerNotFound _) =>
             Raise (ChaliceError (unsupported_image_message dc))
         | Some e => Raise e
         end,
         with_fs outcome.1
           (log (EvContainersRun (image dc) (docker_command self dc) (env dc) true
                   (docker_volumes self sam_package_dir) "/app")
              (log (EvPrint ("Packaging Chalice app for " +:+ stage_name self))
                 (log EvDockerFromEnv w))))
    end.
Proof.
  unfold _package_app_container, from_env, client_containers_run, try_except,
    bind, emit, get_world, ret, raise.
  simpl. destruct (docker_from_env host (os_environ w)) as [e0|]; [done|].
  destruct (containers_run _ _ _ _ _ _ _ _) as [files [e|]]; [|done].
  by destruct e.
Qed.

(** The trace that the containerized runner leaves. *)
Lemma package_app_container_trace (host : Host) (self : Chalice) (dc : DockerConfig)
    (sam_package_dir : string) (w : World) :
  trace (_package_app_container host self dc sam_package_dir w).2
  = trace w ++ container_events host self dc sam_package_dir (os_environ w).
Proof.
  rewrite package_app_container_run. unfold container_events.
  destruct (docker_from_env host (os_environ w)) as [e0|]; [done|].
  simpl. by rewrite <- !app_assoc.
Qed.

(** [_package_app] is the runner it chooses, run in the chosen directory
    once the identifier is drawn. *)
Lemma package_app_eq (host : Host) (self : Chalice) (w : World) :
  _package_app host self w =
    let r :=
      match docker_config self with
      | Some dc => _package_app_container host self dc (chosen_dir host w)
      | None => _package_app_subprocess host self (chosen_dir host w)
      end (with_uuid_count (S (uuid_count w)) w) in
    (match r.1 with Ok _ => Ok (chosen_dir host w) | Raise e => Raise e end, r.2).
Proof.
  unfold _package_app, uuid4, get_world, ret. unfold bind at 1 2 3. simpl.
  fold (chosen_dir host w). unfold bind.
  destruct (docker_config self) as [dc|].
  - by destruct (_package_app_container _ _ _ _ _) as [[[]|] ?].
  - by destruct (_package_app_subprocess _ _ _ _) as [[[]|] ?].
Qed.

Lemma package_app_trace (host : Host) (self : Chalice) (w : World) :
  trace (_package_app host self w).2 = trace w ++ packaging_events host self w.
Proof.
  rewrite package_app_eq. unfold packaging_events. simpl.
  destruct (docker_config self) as [dc|].
  - by rewrite package_app_container_trace.
  - rewrite package_app_subprocess_run. simpl. by rewrite <- !app_assoc.
Qed.

(** C4. [_package_app] runs the containerized runner exactly when
    [docker_config] is given and the local runner exactly when it is [None].
    In the events it adds to the trace, a call that only the containerized
    runner makes ([docker.from_env()], with which it starts, or
    [containers.run]) occurs exactly when [docker_config] is given, and a
    call of [subprocess.run] exactly when it is [None]; one of the two
    occurs, never both.  [containers.run] itself is reached exactly when
    [docker_config] is given and the client could be made. *)
Theorem package_app_runner_choice (host : Host) (self : Chalice) (w : World) :
  (∀ dc, docker_config self = Some dc →
     (_package_app host self w).2
     = (_package_app_container host self dc (chosen_dir host w)
          (with_uuid_count (S (uuid_count w)) w)).2)
  ∧ (docker_config self = None →
     (_package_app host self w).2
     = (_package_app_subprocess host self (chosen_dir host w)
          (with_uuid_count (S (uuid_count w)) w)).2)
  ∧ ∃ new : list event,
      trace (_package_app host self w).2 = trace w ++ new
      ∧ (existsb is_container_call new = true ↔ is_Some (docker_config self))
      ∧ (existsb is_subprocess_run new = true ↔ docker_config self = None)
      ∧ existsb is_container_call new = negb (existsb is_subprocess_run new)
      ∧ (existsb is_containers_run new = true
         ↔ is_Some (docker_config self)
           ∧ docker_from_env host (os_environ w) = None).
Proof.
  split_and!.
  - intros dc Hdc. rewrite package_app_eq. simpl. by rewrite Hdc.
  - intros Hdc. rewrite package_app_eq. simpl. by rewrite Hdc.
  - exists (packaging_events host self w).
    split; [apply package_app_trace|].
    unfold packaging_events, container_events.
    destruct (docker_config self) as [dc|]; simpl.
    + destruct (docker_from_env host (os_environ w)) as [e0|]; simpl.
      * split_and!; [by split; [eauto|]|by split|done|].
        split; [done|by intros [_ ?]].
      * split_and!; [by split; [eauto|]|by split|done|].
        split; [by eauto|done].
    + split_and!; [split; [done|by intros [? ?]]|done|done|].
      split; [done|by intros [[? ?] _]].
Qed.

Lemma package_app_runner_choice_witness :
  existsb is_container_call
    (trace (_package_app Example.host_no_daemon Example.self_docker Example.world).2)
  = true
  ∧ existsb is_containers_run
      (trace (_package_app Example.host_no_daemon Example.self_docker Example.world).2)
    = false
  ∧ existsb is_containers_run
      (trace (_package_app Example.host Example.self_docker Example.world).2)
    = true
  ∧ existsb is_subprocess_run
      (trace (_package_app Example.host Example.self Example.world).2)
    = true.
Proof.
  destruct (package_app_runner_choice Example.host_no_daemon Example.self_docker
              Example.world) as (_ & _ & new & Htrace & Hcall & _ & _ & Hrun).
  destruct (package_app_runner_choice Example.host Example.self_docker
              Example.world) as (_ & _ & new' & Htrace' & _ & _ & _ & Hrun').
  destruct (package_app_runner_choice Example.host Example.self
              Example.world) as (_ & _ & new'' & Htrace'' & _ & Hsub & _).
  rewrite Htrace, Htrace', Htrace''. simpl. split_and!.
  - apply Hcall. by eexists.
  - destruct (existsb is_containers_run new); [|done].
    destruct Hrun as [Hrun _]. by destruct (Hrun eq_refl) as [_ ?].
  - apply Hrun'. split; [by eexists|reflexivity].
  - apply Hsub. reflexivity.
Defined.

(** C5. The environment that [_package_app_subprocess] hands to the child
    is the environment of the process with the region defaulted: a region
    set by the caller is kept, a missing one becomes [us-east-1], every
    other variable is as it was.  The same holds of the environment of a
    [DockerConfig] with respect to the [env] it was constructed with (none
    counts as empty); the containerized runner hands that environment, and
    no other, to the container when it runs one, which it does unless
    [docker.from_env()] raises. *)
Theorem region_default (host : Host) (self : Chalice) (sam_package_dir : string)
    (w : World) (image_arg : option string) (env_arg : option (gmap string string))
    (init_commands_arg : option (list string)) :
  (∃ observed,
     build_environments (trace (_package_app_subprocess host self sam_package_dir w).2)
     = build_environments (trace w) ++ [observed]
     ∧ region_defaulted (os_environ w) observed)
  ∧ region_defaulted (default ∅ env_arg)
      (env (DockerConfig_init host image_arg env_arg init_commands_arg))
  ∧ build_environments
      (trace (_package_app_container host self
                (DockerConfig_init host image_arg env_arg init_commands_arg)
                sam_package_dir w).2)
    = build_environments (trace w)
      ++ match docker_from_env host (os_environ w) with
         | None => [env (DockerConfig_init host image_arg env_arg init_commands_arg)]
         | Some _ => []
         end.
Proof.
  split_and!.
  - exists (local_env w). split; [|apply setdefault_region].
    rewrite package_app_subprocess_run. simpl.
    unfold build_environments. by rewrite !omap_app, !app_nil_r.
  - simpl. destruct env_arg as [e|]; simpl; [|apply setdefault_region].
    destruct (decide (e = ∅)) as [->|]; apply setdefault_region.
  - rewrite package_app_container_trace. unfold container_events, build_environments.
    rewrite omap_app.
    by destruct (docker_from_env host (os_environ w)).
Qed.

Lemma region_default_witness :
  (∃ observed,
     build_environments
       (trace (_package_app_subprocess Example.host Example.self "out"
                 Example.world_region).2) = [observed]
     ∧ observed !! "AWS_DEFAULT_REGION" = Some "eu-west-1"
     ∧ observed !! "PATH" = Some "/usr/local/bin:/usr/bin")
  ∧ (∃ observed,
       build_environments
         (trace (_package_app_subprocess Example.host Example.self "out"
                   Example.world).2) = [observed]
       ∧ observed !! "AWS_DEFAULT_REGION" = Some "us-east-1")
  ∧ (∃ observed,
       build_environments
         (trace (_package_app_container Example.host Example.self
                   (DockerConfig_init Example.host None
                      (Some {[ "AWS_DEFAULT_REGION" := "ap-south-1" ]}) None)
                   "out" Example.world).2) = [observed]
       ∧ observed !! "AWS_DEFAULT_REGION" = Some "ap-south-1")
  ∧ (∃ observed,
       build_environments
         (trace (_package_app_container Example.host Example.self
                   (DockerConfig_init Example.host None None None)
                   "out" Example.world).2) = [observed]
       ∧ observed !! "AWS_DEFAULT_REGION" = Some "us-east-1")
  ∧ build_environments
      (trace (_package_app_container Example.host_no_daemon Example.self
                (DockerConfig_init Example.host_no_daemon None None None)
                "out" Example.world).2) = [].
Proof.
  split_and!.
  - destruct (region_default Example.host Example.self "out" Example.world_region
                None None None) as [(observed & Htrace & Hkeep & _ & Hrest) _].
    exists observed. split_and!.
    + exact Htrace.
    + apply Hkeep. vm_compute. reflexivity.
    + rewrite Hrest by discriminate. vm_compute. reflexivity.
  - destruct (region_default Example.host Example.self "out" Example.world
                None None None) as [(observed & Htrace & _ & Hdefault & _) _].
    exists observed. split; [exact Htrace|].
    apply Hdefault. vm_compute. reflexivity.
  - destruct (region_default Example.host Example.self "out" Example.world
                None (Some {[ "AWS_DEFAULT_REGION" := "ap-south-1" ]}) None)
      as (_ & (Hkeep & _) & Htrace).
    eexists. split; [exact Htrace|].
    apply Hkeep. vm_compute. reflexivity.
  - destruct (region_default Example.host Example.self "out" Example.world
                None None None) as (_ & (_ & Hdefault & _) & Htrace).
    eexists. split; [exact Htrace|].
    apply Hdefault. vm_compute. reflexivity.
  - destruct (region_default Example.host_no_daemon Example.self "out" Example.world
                None None None) as (_ & _ & Htrace).
    exact Htrace.
Defined.

(** C6, as the claim states it, fails for the local runner: the build exits
    with status 1 and [_package_app_subprocess] returns normally. *)
Lemma failed_local_build_returns :
  (subprocess_run Example.host_build_fails
     (local_command Example.host_build_fails Example.self "out" Example.world)
     (source_dir Example.self) (local_env Example.world) (fs Example.world)).2
  = Ok 1%Z
  ∧ (_package_app_subprocess Example.host_build_fails Example.self "out"
       Example.world).1 = Ok tt.
Proof. split; vm_compute; reflexivity. Qed.

(** C6, amended. Every exception of the container runtime, the one for a
    container that exits with a non-zero status among them, makes
    [_package_app_container] raise: [ChaliceError] for [NotFound], the
    exception itself otherwise (and the exception of [docker.from_env()]
    when the client cannot even be made).  [_package_app_subprocess] raises what
    [subprocess.run] raises when the child cannot be started, and returns
    normally once the child has run, whatever its exit status. *)
Theorem build_failure_propagation (host : Host) (self : Chalice) (dc : DockerConfig)
    (sam_package_dir : string) (w : World) :
  (∀ e,
     (containers_run host (image dc) (docker_command self dc) (env dc) true
        (docker_volumes self sam_package_dir) "/app" (fs w)).2 = Some e →
     (_package_app_container host self dc sam_package_dir w).1 =
       Raise (match docker_from_env host (os_environ w) with
              | Some no_client => no_client
              | None =>
                  match e with
                  | DockerNotFound _ => ChaliceError (unsupported_image_message dc)
                  | _ => e
                  end
              end))
  ∧ (∀ e,
       (subprocess_run host (local_command host self sam_package_dir w)
          (source_dir self) (local_env w) (fs w)).2 = Raise e →
       (_package_app_subprocess host self sam_package_dir w).1 = Raise e)
  ∧ (∀ status,
       (subprocess_run host (local_command host self sam_package_dir w)
          (source_dir self) (local_env w) (fs w)).2 = Ok status →
       (_package_app_subprocess host self sam_package_dir w).1 = Ok tt).
Proof.
  split_and!.
  - intros e He. rewrite package_app_container_run.
    destruct (docker_from_env host (os_environ w)); [done|].
    simpl. rewrite He. by destruct e.
  - intros e He. rewrite package_app_subprocess_run. simpl. by rewrite He.
  - intros status He. rewrite package_app_subprocess_run. simpl. by rewrite He.
Qed.

Lemma build_failure_propagation_witness :
  (_package_app_container Example.host_container_fails Example.self Example.docker
     "out" Example.world).1 = Raise (DockerContainerError 2)
  ∧ (_package_app_subprocess Example.host Example.self "out"
       Example.world_no_chalice).1 = Raise TypeError
  ∧ (_package_app_subprocess Example.host_build_fails Example.self "out"
       Example.world).1 = Ok tt.
Proof.
  split_and!.
  - destruct (build_failure_propagation Example.host_container_fails Example.self
                Example.docker "out" Example.world) as (Hcontainer & _ & _).
    apply (Hcontainer (DockerContainerError 2)). vm_compute. reflexivity.
  - destruct (build_failure_propagation Example.host Example.self Example.docker
                "out" Example.world_no_chalice) as (_ & Hlaunch & _).
    apply (Hlaunch TypeError). vm_compute. reflexivity.
  - destruct (build_failure_propagation Example.host_build_fails Example.self
                Example.docker "out" Example.world) as (_ & _ & Hstatus).
    apply (Hstatus 1%Z). vm_compute. reflexivity.
Defined.

Lemma length_app_str (a b : string) :
  String.length (a +:+ b) = String.length a + String.length b.
Proof.
  induction a as [|c a IH]; [done|]. rewrite app_cons. simpl. by rewrite IH.
Qed.

(** C7, as the claim states it, fails in its second half: the handler
    catches every [NotFound], not only the one for the configured image.
    Here the runtime does not find a container; the report does not name
    the image, and still what comes out is the [ChaliceError] on the image,
    not the exception of the runtime. *)
Lemma not_found_other_than_image_rewritten :
  (containers_run Example.host_no_container (image Example.docker)
     (docker_command Example.self Example.docker) (env Example.docker) true
     (docker_volumes Example.self "out") "/app" (fs Example.world)).2
  = Some (DockerNotFound "No such container: 9f1c0")
  ∧ ¬ Str.contains "No such container: 9f1c0" (image Example.docker)
  ∧ (_package_app_container Example.host_no_container Example.self Example.docker
       "out" Example.world).1
    = Raise (ChaliceError (unsupported_image_message Example.docker))
  ∧ (_package_app_container Example.host_no_container Example.self Example.docker
       "out" Example.world).1
    ≠ Raise (DockerNotFound "No such container: 9f1c0").
Proof.
  split_and!.
  - vm_compute. reflexivity.
  - intros (before & after & H). apply (f_equal String.length) in H.
    rewrite !length_app_str in H.
    change (image Example.docker) with "lambci/lambda:build-python3.7" in H.
    simpl in H. lia.
  - vm_compute. reflexivity.
  - vm_compute. discriminate.
Qed.

(** C7, amended. When [containers.run] raises [NotFound], for the configured
    image or for anything else, [_package_app_container] raises
    [ChaliceError] with a message that holds the image of the
    configuration; an exception of [containers.run] that is no [NotFound]
    comes out as it is, and so does what [docker.from_env()] raises before
    the run. *)
Theorem package_app_container_errors (host : Host) (self : Chalice)
    (dc : DockerConfig) (sam_package_dir : string) (w : World) :
  (∀ no_client, docker_from_env host (os_environ w) = Some no_client →
     (_package_app_container host self dc sam_package_dir w).1 = Raise no_client)
  ∧ ∀ e,
      docker_from_env host (os_environ w) = None →
      (containers_run host (image dc) (docker_command self dc) (env dc) true
         (docker_volumes self sam_package_dir) "/app" (fs w)).2 = Some e →
      ((∃ explanation, e = DockerNotFound explanation) →
       ∃ message,
         (_package_app_container host self dc sam_package_dir w).1
         = Raise (ChaliceError message)
         ∧ Str.contains message (image dc))
      ∧ ((∀ explanation, e ≠ DockerNotFound explanation) →
         (_package_app_container host self dc sam_package_dir w).1 = Raise e).
Proof.
  split.
  - intros e0 He0. rewrite package_app_container_run. by rewrite He0.
  - intros e Hclient He. rewrite package_app_container_run, Hclient.
    simpl. rewrite He. split.
    + intros [explanation ->]. eexists. split; [reflexivity|].
      unfold unsupported_image_message. by eexists _, _.
    + intros Hne. destruct e; try done. by destruct (Hne explanation).
Qed.

Lemma package_app_container_errors_witness :
  (∃ message,
     (_package_app_container Example.host_no_image Example.self Example.docker
        "out" Example.world).1 = Raise (ChaliceError message)
     ∧ Str.contains message "lambci/lambda:build-python3.7")
  ∧ (_package_app_container Example.host_container_fails Example.self
       Example.docker "out" Example.world).1 = Raise (DockerContainerError 2)
  ∧ (_package_app_container Example.host_no_daemon Example.self
       Example.docker "out" Example.world).1
    = Raise (DockerAPIError "Error while fetching server API version").
Proof.
  destruct (package_app_container_errors Example.host_no_image Example.self
              Example.docker "out" Example.world) as [_ Himage].
  destruct (package_app_container_errors Example.host_container_fails Example.self
              Example.docker "out" Example.world) as [_ Hother].
  destruct (package_app_container_errors Example.host_no_daemon Example.self
              Example.docker "out" Example.world) as [Hclient _].
  split_and!.
  - apply (Himage (DockerNotFound "No such image: lambci/lambda:build-python3.7")).
    + reflexivity.
    + vm_compute. reflexivity.
    + eexists. reflexivity.
  - apply (Hother (DockerContainerError 2)).
    + reflexivity.
    + vm_compute. reflexivity.
    + discriminate.
  - apply Hclient. reflexivity.
Defined.

Lemma in_order_init_commands (commands parts : list string) (before tail : string) :
  Str.in_order parts tail →
  Str.in_order (commands ++ parts)
    (before +:+ Str.concat ((λ command, command +:+ "; ") <$> commands) +:+ tail).
Proof.
  revert before. induction commands as [|c commands IH]; intros before Htail.
  - simpl. rewrite app_nil_l.
    destruct parts as [|p parts]; [done|].
    destruct Htail as (b & rest & -> & Hrest).
    exists (before +:+ b), rest. split; [|done]. by rewrite app_assoc_str.
  - simpl. exists before, ("; " +:+ Str.concat ((λ command, command +:+ "; ") <$> commands)
                              +:+ tail).
    split; [|by apply IH].
    by rewrite !app_assoc_str.
Qed.

(** C8. The command string of the containerized runner is [bash -c]
    followed by one quoted script, in which the init commands occur in
    their order, then the installation of the requirements, then
    [chalice package --stage <stage_name> /chalice.out]; that string, and
    no other, is the command given to the container runtime when the
    runner reaches it, which it does unless [docker.from_env()] raises. *)
Theorem docker_command_in_order (self : Chalice) (dc : DockerConfig) :
  (∃ script,
     docker_command self dc = "bash -c " +:+ Str.dquote +:+ script +:+ Str.dquote
     ∧ Str.in_order
         (init_commands dc
          ++ ["pip install --no-cache-dir -r requirements.txt";
              "chalice package --stage " +:+ stage_name self +:+ " /chalice.out"])
         script)
  ∧ ∀ (host : Host) (sam_package_dir : string) (w : World),
      container_commands
        (trace (_package_app_container host self dc sam_package_dir w).2)
      = container_commands (trace w)
        ++ match docker_from_env host (os_environ w) with
           | None => [docker_command self dc]
           | Some _ => []
           end.
Proof.
  split.
  - exists (Str.concat ((λ command, command +:+ "; ") <$> init_commands dc)
            +:+ "pip install --no-cache-dir -r requirements.txt; "
            +:+ "chalice package --stage " +:+ stage_name self +:+ " /chalice.out").
    split.
    + unfold docker_command. by rewrite !app_assoc_str.
    + apply (in_order_init_commands (init_commands dc) _ "").
      exists "", ("; " +:+ "chalice package --stage " +:+ stage_name self
                  +:+ " /chalice.out").
      split; [done|].
      exists "; ", "". split; [|done].
      by rewrite !app_assoc_str, app_empty_r.
  - intros host sam_package_dir w. rewrite package_app_container_trace.
    unfold container_events, container_commands. rewrite omap_app.
    by destruct (docker_from_env host (os_environ w)).
Qed.

(** C9. A [DockerConfig] made without an image, or with the empty string,
    has the image [lambci/lambda:build-python<major>.<minor>] of the running
    interpreter; made with another string, it has that string. *)
Theorem docker_config_image (host : Host) (image_arg : option string)
    (env_arg : option (gmap string string)) (init_commands_arg : option (list string)) :
  (image_arg = None ∨ image_arg = Some "" →
   image (DockerConfig_init host image_arg env_arg init_commands_arg)
   = "lambci/lambda:build-python" +:+ pretty (sys_version_info host).1
     +:+ "." +:+ pretty (sys_version_info host).2)
  ∧ (∀ i, image_arg = Some i → i ≠ "" →
       image (DockerConfig_init host image_arg env_arg init_commands_arg) = i).
Proof.
  split.
  - by intros [-> | ->].
  - intros i -> Hi. simpl. by destruct i.
Qed.

Lemma docker_config_image_witness :
  image (DockerConfig_init Example.host None None None) = "lambci/lambda:build-python3.7"
  ∧ image (DockerConfig_init Example.host (Some "") (Some ∅) (Some ["pip install chalice"]))
    = "lambci/lambda:build-python3.7"
  ∧ image (DockerConfig_init Example.host (Some "python:3.7") None None) = "python:3.7".
Proof.
  split_and!.
  - destruct (docker_config_image Example.host None None None) as [Hdefault _].
    rewrite Hdefault; [vm_compute; reflexivity|by left].
  - destruct (docker_config_image Example.host (Some "") (Some ∅)
                (Some ["pip install chalice"])) as [Hdefault _].
    rewrite Hdefault; [vm_compute; reflexivity|by right].
  - destruct (docker_config_image Example.host (Some "python:3.7") None None)
      as [_ Hgiven].
    apply Hgiven; [reflexivity|discriminate].
Defined.

(** * Further properties *)

(** ** The stage-configuration merge, continued *)

Lemma set_same (k : string) (v : json) (d : dict) :
  Dict.get k d = Some v → Dict.set k v d = d.
Proof.
  induction d as [|[k' v'] d IH]; simpl; [done|].
  destruct (String.eqb k k') eqn:E.
  - by intros [= ->].
  - intros H. by rewrite IH.
Qed.

Lemma create_stage_with_config_ok (host : Host) (self : Chalice) (w : World)
    (text : string) (config stages : dict) :
  fs w !! config_path self = Some text →
  json_loads host text = Some (JObj config) →
  Dict.get "stages" config = Some (JObj stages) →
  _create_stage_with_config host self w
  = (Ok tt, after_merge host self config stages w).
Proof.
  intros Hfile Hload Hstages.
  unfold _create_stage_with_config.
  erewrite bind_ok by (eapply open_ok, Hfile).
  erewrite bind_ok by (eapply json_load_ok; [exact Hfile|by rewrite Str_drop_0]).
  unfold subscript. rewrite Hstages. simpl.
  erewrite bind_ok by apply lift_run.
  erewrite bind_ok by apply lift_run.
  erewrite bind_ok by apply lift_run.
  erewrite bind_ok by reflexivity.
  erewrite bind_ok by (eapply f_write_ok, Hfile).
  erewrite f_truncate_ok by (simpl; apply lookup_insert_eq).
  unfold after_merge, with_fs, log, merged. simpl. f_equal. f_equal.
  - rewrite insert_insert_eq. f_equal. apply rewrite_from_start.
  - by rewrite <- !app_assoc.
Qed.

(** X1. The merge writes the serialised document and nothing else: the file
    holds exactly [json.dumps] of the merged document, however long the old
    text was; the trace gains the opening and the two writes (the text and
    the cut); no other file changes.  No assumption on how the text reads
    back is needed. *)
Theorem create_stage_with_config_file (host : Host) (self : Chalice) (w : World)
    (text : string) (config stages : dict) :
  fs w !! config_path self = Some text →
  json_loads host text = Some (JObj config) →
  Dict.get "stages" config = Some (JObj stages) →
  ∃ w' : World,
    _create_stage_with_config host self w = (Ok tt, w')
    ∧ fs w' = <[config_path self := json_dumps host (merged self config stages)]> (fs w)
    ∧ trace w' = trace w ++ [EvOpen (config_path self) "r+";
                             EvWriteFile (config_path self);
                             EvWriteFile (config_path self)]
    ∧ os_environ w' = os_environ w
    ∧ os_getcwd w' = os_getcwd w
    ∧ uuid_count w' = uuid_count w.
Proof.
  intros Hfile Hload Hstages. eexists. split.
  - by eapply create_stage_with_config_ok.
  - done.
Qed.

Lemma create_stage_with_config_file_witness :
  ∃ w' : World,
    _create_stage_with_config Example.host Example.self Example.world_long = (Ok tt, w')
    ∧ fs w' !! "app/.chalice/config.json"
      = Some (PyJson.dumps
                (JObj [("stages",
                        JObj [("prod", JObj [("api_gateway_stage", JStr "v1")])])])).
Proof.
  destruct (create_stage_with_config_file Example.host Example.self Example.world_long
              Example.long_text [("stages", JObj [])] [])
    as (w' & Hrun & Hfs & _).
  - vm_compute. reflexivity.
  - vm_compute. reflexivity.
  - vm_compute. reflexivity.
  - exists w'. split; [exact Hrun|].
    rewrite Hfs. apply lookup_insert_eq.
Defined.

(** X2. Merging the same stage configuration a second time changes no file: the
    second run writes the text that the first one left. *)
Theorem create_stage_with_config_twice (host : Host) (self : Chalice) (w : World)
    (text : string) (config stages : dict) :
  fs w !! config_path self = Some text →
  json_loads host text = Some (JObj config) →
  Dict.get "stages" config = Some (JObj stages) →
  json_loads host (json_dumps host (merged self config stages))
  = Some (merged self config stages) →
  ∃ w' w'' : World,
    _create_stage_with_config host self w = (Ok tt, w')
    ∧ _create_stage_with_config host self w' = (Ok tt, w'')
    ∧ fs w'' = fs w'.
Proof.
  intros Hfile Hload Hstages Hround.
  eexists _, _. split_and!.
  - by eapply create_stage_with_config_ok.
  - eapply create_stage_with_config_ok.
    + simpl. apply lookup_insert_eq.
    + exact Hround.
    + apply get_set_eq.
  - simpl. unfold merged.
    rewrite (set_same (stage_name self)) by apply get_set_eq.
    rewrite (set_same "stages") by apply get_set_eq.
    apply insert_insert_eq.
Qed.

Lemma create_stage_with_config_twice_witness :
  ∃ w' w'' : World,
    _create_stage_with_config Example.host Example.self Example.world = (Ok tt, w')
    ∧ _create_stage_with_config Example.host Example.self w' = (Ok tt, w'')
    ∧ fs w'' = fs w'.
Proof.
  apply (create_stage_with_config_twice Example.host Example.self Example.world
           (PyJson.dumps Example.config)
           [("version", JStr "2.0"); ("app_name", JStr "demo");
            ("stages", JObj [("dev", JObj [("api_gateway_stage", JStr "api")])])]
           [("dev", JObj [("api_gateway_stage", JStr "api")])]).
  - vm_compute. reflexivity.
  - vm_compute. reflexivity.
  - vm_compute. reflexivity.
  - vm_compute. reflexivity.
Defined.

(** X3. What [_create_stage_with_config] raises: [FileNotFoundError] without
    the file, [JSONDecodeError] when the text does not parse, [KeyError] for
    a document without [stages], [TypeError] when the document or its
    [stages] entry is not an object. *)
Theorem create_stage_with_config_errors (host : Host) (self : Chalice) (w : World) :
  (fs w !! config_path self = None →
   (_create_stage_with_config host self w).1
   = Raise (FileNotFoundError (config_path self)))
  ∧ (∀ text, fs w !! config_path self = Some text →
       json_loads host text = None →
       (_create_stage_with_config host self w).1 = Raise JSONDecodeError)
  ∧ (∀ text config, fs w !! config_path self = Some text →
       json_loads host text = Some (JObj config) →
       Dict.get "stages" config = None →
       (_create_stage_with_config host self w).1 = Raise (KeyError "stages"))
  ∧ (∀ text config v, fs w !! config_path self = Some text →
       json_loads host text = Some (JObj config) →
       Dict.get "stages" config = Some v →
       (∀ d, v ≠ JObj d) →
       (_create_stage_with_config host self w).1 = Raise TypeError)
  ∧ (∀ text j, fs w !! config_path self = Some text →
       json_loads host text = Some j →
       (∀ d, j ≠ JObj d) →
       (_create_stage_with_config host self w).1 = Raise TypeError).
Proof.
  unfold _create_stage_with_config. split_and!.
  - intros Hfile. by erewrite bind_raise by (eapply open_missing, Hfile).
  - intros text Hfile Hload.
    erewrite bind_ok by (eapply open_ok, Hfile).
    by erewrite bind_raise
      by (eapply json_load_malformed; [exact Hfile|by rewrite Str_drop_0]).
  - intros text config Hfile Hload Hstages.
    erewrite bind_ok by (eapply open_ok, Hfile).
    erewrite bind_ok by (eapply json_load_ok; [exact Hfile|by rewrite Str_drop_0]).
    simpl. rewrite Hstages. by rewrite bind_lift.
  - intros text config v Hfile Hload Hstages Hv.
    erewrite bind_ok by (eapply open_ok, Hfile).
    erewrite bind_ok by (eapply json_load_ok; [exact Hfile|by rewrite Str_drop_0]).
    simpl. rewrite Hstages. rewrite !bind_lift.
    destruct v; try done. by destruct (Hv fields).
  - intros text j Hfile Hload Hj.
    erewrite bind_ok by (eapply open_ok, Hfile).
    erewrite bind_ok by (eapply json_load_ok; [exact Hfile|by rewrite Str_drop_0]).
    simpl. rewrite bind_lift. destruct j; try done. by destruct (Hj fields).
Qed.

Lemma create_stage_with_config_errors_witness :
  (_create_stage_with_config Example.host Example.self_elsewhere Example.world).1
  = Raise (FileNotFoundError "other/.chalice/config.json")
  ∧ (_create_stage_with_config Example.host Example.self
       (Example.world_config "{")).1 = Raise JSONDecodeError
  ∧ (_create_stage_with_config Example.host Example.self
       (Example.world_config "{}")).1 = Raise (KeyError "stages")
  ∧ (_create_stage_with_config Example.host Example.self
       (Example.world_config (PyJson.dumps (JObj [("stages", JArr [])])))).1
    = Raise TypeError
  ∧ (_create_stage_with_config Example.host Example.self
       (Example.world_config "[]")).1 = Raise TypeError.
Proof.
  split_and!.
  - apply (create_stage_with_config_errors Example.host Example.self_elsewhere
             Example.world).
    vm_compute. reflexivity.
  - apply (create_stage_with_config_errors Example.host Example.self
             (Example.world_config "{")) with (text := "{").
    + vm_compute. reflexivity.
    + vm_compute. reflexivity.
  - destruct (create_stage_with_config_errors Example.host Example.self
                (Example.world_config "{}")) as (_ & _ & Hkey & _).
    apply (Hkey "{}" []).
    + vm_compute. reflexivity.
    + vm_compute. reflexivity.
    + reflexivity.
  - destruct (create_stage_with_config_errors Example.host Example.self
                (Example.world_config (PyJson.dumps (JObj [("stages", JArr [])]))))
      as (_ & _ & _ & Htype & _).
    apply (Htype (PyJson.dumps (JObj [("stages", JArr [])]))
             [("stages", JArr [])] (JArr [])).
    + vm_compute. reflexivity.
    + vm_compute. reflexivity.
    + reflexivity.
    + discriminate.
  - destruct (create_stage_with_config_errors Example.host Example.self
                (Example.world_config "[]")) as (_ & _ & _ & _ & Htop).
    apply (Htop "[]" (JArr [])).
    + vm_compute. reflexivity.
    + vm_compute. reflexivity.
    + discriminate.
Defined.

Lemma create_stage_with_config_raise (host : Host) (self : Chalice) (w w' : World)
    (e : exn) :
  _create_stage_with_config host self w = (Raise e, w') →
  w' = log (EvOpen (config_path self) "r+") w.
Proof.
  unfold _create_stage_with_config.
  destruct (fs w !! config_path self) as [text|] eqn:Hfile.
  2: { erewrite bind_raise by (eapply open_missing, Hfile). by intros [= _ <-]. }
  erewrite bind_ok by (eapply open_ok, Hfile).
  destruct (json_loads host text) as [j|] eqn:Hload.
  2: { erewrite bind_raise
         by (eapply json_load_malformed; [exact Hfile|by rewrite Str_drop_0]).
       by intros [= _ <-]. }
  erewrite bind_ok by (eapply json_load_ok; [exact Hfile|by rewrite Str_drop_0]).
  simpl. rewrite bind_lift.
  destruct (subscript j "stages") as [v|] eqn:Hsub; [|by intros [= _ <-]].
  rewrite bind_lift.
  destruct (store_subscript v _ _) as [v'|] eqn:Hstore; [|by intros [= _ <-]].
  rewrite bind_lift.
  destruct j as [| | | | | |config]; try done. simpl.
  erewrite bind_ok by reflexivity.
  erewrite bind_ok by (eapply f_write_ok, Hfile).
  erewrite f_truncate_ok by (simpl; apply lookup_insert_eq).
  done.
Qed.

(** X4. A merge that raises has written nothing: every file is as it was, and
    the trace gained only the opening of the configuration file. *)
Theorem create_stage_with_config_failure_keeps_files (host : Host) (self : Chalice)
    (w w' : World) (e : exn) :
  _create_stage_with_config host self w = (Raise e, w') →
  fs w' = fs w ∧ trace w' = trace w ++ [EvOpen (config_path self) "r+"].
Proof.
  intros Hrun. by rewrite (create_stage_with_config_raise _ _ _ _ _ Hrun).
Qed.

Lemma create_stage_with_config_failure_keeps_files_witness :
  fs (_create_stage_with_config Example.host Example.self
        (Example.world_config "{}")).2 = fs (Example.world_config "{}").
Proof.
  eapply (create_stage_with_config_failure_keeps_files Example.host Example.self
            (Example.world_config "{}") _ (KeyError "stages")).
  vm_compute. reflexivity.
Defined.

(** ** The runners, continued *)

(** X5. The local runner starts the build once, in the source directory, with
    the command [chalice_exe package --stage <stage_name> <sam_package_dir>]
    and a defaulted copy of the environment; [os.environ] itself and the
    working directory are not changed.  The result of [shutil.which] is not
    examined: when no executable is found, [None] is the first element of
    the command given to [subprocess.run], whose outcome is then the
    outcome of the runner. *)
Theorem package_app_subprocess_call (host : Host) (self : Chalice)
    (sam_package_dir : string) (w : World) :
  let chalice_exe := shutil_which host "chalice" (os_environ w) (fs w) in
  let command := [chalice_exe; Some "package"; Some "--stage";
                  Some (stage_name self); Some sam_package_dir] in
  let env := setdefault "AWS_DEFAULT_REGION" "us-east-1" (os_environ w) in
  let outcome := subprocess_run host command (source_dir self) env (fs w) in
  let w' := (_package_app_subprocess host self sam_package_dir w).2 in
  trace w' = trace w ++ [EvWhich "chalice";
                         EvPrint ("Packaging Chalice app for " +:+ stage_name self);
                         EvSubprocessRun command (source_dir self) env]
  ∧ fs w' = outcome.1
  ∧ os_environ w' = os_environ w
  ∧ os_getcwd w' = os_getcwd w
  ∧ (_package_app_subprocess host self sam_package_dir w).1
    = match outcome.2 with Ok _ => Ok tt | Raise e => Raise e end
  ∧ (chalice_exe = None → ∃ rest, command = None :: rest).
Proof.
  rewrite package_app_subprocess_run. simpl. split_and!.
  - by rewrite <- !app_assoc.
  - done.
  - done.
  - done.
  - done.
  - intros ->. by eexists.
Qed.

Lemma package_app_subprocess_call_witness :
  trace (_package_app_subprocess Example.host Example.self "out"
           Example.world_no_chalice).2
  = [EvWhich "chalice"; EvPrint "Packaging Chalice app for prod";
     EvSubprocessRun [None; Some "package"; Some "--stage"; Some "prod"; Some "out"]
       "app"
       (<["AWS_DEFAULT_REGION" := "us-east-1"]> (os_environ Example.world))].
Proof.
  destruct (package_app_subprocess_call Example.host Example.self "out"
              Example.world_no_chalice) as (Htrace & _).
  rewrite Htrace. vm_compute. reflexivity.
Defined.

(** X6. The volumes of the containerized runner: the output directory is
    mounted at [/chalice.out] and, when it is another directory, the source
    directory at [/app], both read-write, and nothing else.  When the two
    directories are the same path the dictionary keeps the later entry
    only: the directory is mounted at [/chalice.out] and nothing at [/app],
    the working directory of the container.  The runner starts with
    [docker.from_env()]; unless that raises, it prints and calls
    [containers.run] once, with these volumes, [remove=True] and the
    working directory [/app]; when it raises, nothing is printed or run. *)
Theorem docker_volumes_binds (self : Chalice) (sam_package_dir : string) :
  docker_volumes self sam_package_dir !! sam_package_dir = Some ("/chalice.out", "rw")
  ∧ (source_dir self ≠ sam_package_dir →
     docker_volumes self sam_package_dir !! source_dir self = Some ("/app", "rw")
     ∧ size (docker_volumes self sam_package_dir) = 2)
  ∧ (source_dir self = sam_package_dir →
     docker_volumes self sam_package_dir = {[ sam_package_dir := ("/chalice.out", "rw") ]})
  ∧ (∀ p, p ≠ sam_package_dir → p ≠ source_dir self →
       docker_volumes self sam_package_dir !! p = None)
  ∧ ∀ (host : Host) (dc : DockerConfig) (w : World),
      trace (_package_app_container host self dc sam_package_dir w).2
      = trace w
        ++ EvDockerFromEnv ::
           match docker_from_env host (os_environ w) with
           | Some _ => []
           | None =>
               [EvPrint ("Packaging Chalice app for " +:+ stage_name self);
                EvContainersRun (image dc) (docker_command self dc) (env dc) true
                  (docker_volumes self sam_package_dir) "/app"]
           end.
Proof.
  unfold docker_volumes. split_and!.
  - apply lookup_insert_eq.
  - intros Hne. split.
    + rewrite lookup_insert_ne by done. apply lookup_insert_eq.
    + rewrite map_size_insert_None.
      * by rewrite map_size_insert_None, map_size_empty by apply lookup_empty.
      * rewrite lookup_insert_ne by done. apply lookup_empty.
  - intros ->. by rewrite insert_insert_eq.
  - intros p Hp Hs. by rewrite !lookup_insert_ne.
  - intros host dc w. apply package_app_container_trace.
Qed.

Lemma docker_volumes_binds_witness :
  (docker_volumes Example.self "out" !! "app" = Some ("/app", "rw")
   ∧ size (docker_volumes Example.self "out") = 2)
  ∧ docker_volumes Example.self "app" = {[ "app" := ("/chalice.out", "rw") ]}
  ∧ docker_volumes Example.self "out" !! "/etc" = None.
Proof.
  destruct (docker_volumes_binds Example.self "out") as (_ & Htwo & _ & Hnone & _).
  destruct (docker_volumes_binds Example.self "app") as (_ & _ & Hsame & _).
  split; [apply Htwo; discriminate|].
  split; [apply Hsame; reflexivity|apply Hnone; discriminate].
Defined.

Lemma count_dquote_app (a b : string) :
  count_dquote (a +:+ b) = count_dquote a + count_dquote b.
Proof.
  induction a as [|c a IH]; [done|].
  rewrite app_cons. simpl. rewrite IH. lia.
Qed.

(** X7. The command string is built without any quoting of its parts: it holds
    the two double quotes that enclose the script and, besides them, exactly
    those of the init commands and of the stage name.  So the script is one
    shell word only when none of these holds a double quote. *)
Theorem docker_command_quotes (self : Chalice) (dc : DockerConfig) :
  count_dquote (docker_command self dc)
  = 2 + foldr (λ command n, count_dquote command + n) 0 (init_commands dc)
    + count_dquote (stage_name self).
Proof.
  unfold docker_command. rewrite !count_dquote_app.
  assert (count_dquote
            (Str.concat ((λ command, command +:+ "; ") <$> init_commands dc))
          = foldr (λ command n, count_dquote command + n) 0 (init_commands dc))
    as ->.
  { induction (init_commands dc) as [|c l IH]; [done|].
    csimpl. rewrite !count_dquote_app, IH. simpl. lia. }
  simpl. lia.
Qed.

(** ** The template rewrite, continued *)

Lemma rewritten_none (a : Asset) (resources : dict) :
  forallb (λ kv, negb (is_function kv.2)) resources = true →
  prod_map id (rewritten a) <$> resources = resources.
Proof.
  induction resources as [|[k v] rs IH]; [done|].
  intros Hall. simpl in Hall. apply andb_prop in Hall as [Hv Hrs].
  csimpl. rewrite IH by done.
  rewrite rewritten_other; [done|]. by destruct (is_function v).
Qed.

(** X8. On a manifest without function resources (one without any resource
    among them) the rewrite returns the parsed manifest as it is; the asset
    for the archive is created all the same. *)
Theorem update_sam_template_no_functions (host : Host) (sam_package_dir : string)
    (w : World) (archive text : string) (template resources : dict) :
  fs w !! deployment_zip_path sam_package_dir = Some archive →
  fs w !! sam_template_path sam_package_dir = Some text →
  json_loads host text = Some (JObj template) →
  Dict.get "Resources" template = Some (JObj resources) →
  forallb (λ kv, has_type kv.2) resources = true →
  forallb (λ kv, negb (is_function kv.2)) resources = true →
  (_update_sam_template host sam_package_dir w).1 = Ok (JObj template)
  ∧ trace (_update_sam_template host sam_package_dir w).2
    = trace w ++ [EvAsset "ChaliceAppCode" (deployment_zip_path sam_package_dir);
                  EvOpen (sam_template_path sam_package_dir) "r"].
Proof.
  intros Hzip Hsam Hload Hres Htype Hnone.
  assert (forallb (λ kv, resource_ok kv.2) resources = true) as Hok.
  { clear Hres. induction resources as [|[k v] rs IH]; [done|].
    simpl in *. apply andb_prop in Htype as [Hv Hrs].
    apply andb_prop in Hnone as [Hn Hns]. rewrite IH by done.
    rewrite andb_true_r. revert Hv Hn. unfold has_type, is_function.
    destruct v as [| | | | | |d]; try done. simpl.
    destruct (Dict.get "Type" d); [|done]. by destruct (eq_str _ _). }
  erewrite update_sam_template_run by done. simpl.
  rewrite rewritten_none by done.
  rewrite set_same by done. split; [done|]. by rewrite <- app_assoc.
Qed.

Lemma update_sam_template_no_functions_witness :
  (_update_sam_template Example.host "out"
     (Example.world_manifest (JObj [("Resources", JObj [])]))).1
  = Ok (JObj [("Resources", JObj [])]).
Proof.
  apply (update_sam_template_no_functions Example.host "out"
           (Example.world_manifest (JObj [("Resources", JObj [])]))
           "PK-archive" (PyJson.dumps (JObj [("Resources", JObj [])]))
           [("Resources", JObj [])] []).
  - vm_compute. reflexivity.
  - vm_compute. reflexivity.
  - vm_compute. reflexivity.
  - reflexivity.
  - reflexivity.
  - reflexivity.
Defined.

Lemma select_functions_raise (i : nat) (before after : dict) (k : string) (v : json)
    (e : exn) :
  forallb (λ kv, has_type kv.2) before = true →
  subscript v "Type" = Raise e →
  select_functions i (before ++ (k, v) :: after) = Raise e.
Proof.
  revert i. induction before as [|[k0 v0] before IH]; intros i Hall Hv; simpl.
  - by rewrite Hv.
  - simpl in Hall. apply andb_prop in Hall as [H0 Hall].
    unfold has_type in H0. destruct (subscript v0 "Type"); [|done].
    by rewrite IH.
Qed.

Lemma select_functions_ok (i : nat) (resources : dict) :
  forallb (λ kv, has_type kv.2) resources = true →
  ∃ functions, select_functions i resources = Ok functions.
Proof.
  revert i. induction resources as [|[k v] rs IH]; intros i Hall; simpl.
  - by eexists.
  - simpl in Hall. apply andb_prop in Hall as [Hv Hall].
    unfold has_type in Hv. destruct (subscript v "Type"); [|done].
    destruct (IH (S i) Hall) as [l ->]. by eexists.
Qed.

(** The loop stops at the first function, in the order of the resources,
    whose [Properties] cannot be set. *)
Lemma update_functions_raise (a : Asset) (before after : dict) (k : string)
    (v : json) (e : exn) (i : nat) :
  forallb (λ kv, resource_ok kv.2) before = true →
  forallb (λ kv, has_type kv.2) after = true →
  is_function v = true →
  set_code_uri a v = Raise e →
  ∃ functions,
    select_functions i (before ++ (k, v) :: after) = Ok functions
    ∧ ∀ done_ : dict, List.length done_ = i →
        update_functions a functions (done_ ++ before ++ (k, v) :: after) = Raise e.
Proof.
  intros Hbefore Hafter Hfun Hset. revert i.
  induction before as [|[k0 v0] before IH]; intros i.
  - destruct (select_functions_ok (S i) after Hafter) as [l Hl].
    simpl. revert Hfun. unfold is_function.
    destruct (subscript v "Type") as [type|]; [|done]. intros ->. rewrite Hl.
    eexists. split; [done|]. intros pre <-. simpl.
    by rewrite list_lookup_middle, Hset.
  - simpl in Hbefore. apply andb_prop in Hbefore as [H0 Hbefore].
    destruct (IH Hbefore (S i)) as (l & Hl & Hraise).
    destruct (resource_ok_inv v0 H0) as (d & type & -> & Ht & Hf & Hprops).
    simpl. rewrite Ht, Hl. eexists. split; [done|].
    intros pre Hlen. destruct (eq_str type function_type) eqn:Hfn.
    + destruct (Hprops eq_refl) as [p Hp]. simpl.
      rewrite <- Hlen, list_lookup_middle by done.
      rewrite (set_code_uri_function a d p Hp).
      rewrite insert_app_r_alt, Nat.sub_diag by lia. simpl.
      rewrite cons_middle, app_assoc.
      apply Hraise. rewrite length_app. simpl. lia.
    + rewrite cons_middle, app_assoc.
      apply Hraise. rewrite length_app. simpl. lia.
Qed.

(** X9. What [_update_sam_template] raises on a manifest it reads but cannot
    process.  The document or a resource that is not an object: [TypeError];
    no [Resources]: [KeyError]; [Resources] that is not an object:
    [AttributeError].  Every resource is asked for its [Type] before any is
    changed: the first one without it decides the exception, whatever the
    functions before it look like.  When all have a [Type], the first
    function without a [Properties] object decides it: [KeyError] when the
    entry is missing, [TypeError] when it is no object. *)
Theorem update_sam_template_errors (host : Host) (sam_package_dir : string)
    (w : World) (archive text : string) (j : json) :
  fs w !! deployment_zip_path sam_package_dir = Some archive →
  fs w !! sam_template_path sam_package_dir = Some text →
  json_loads host text = Some j →
  ((∀ d, j ≠ JObj d) →
   (_update_sam_template host sam_package_dir w).1 = Raise TypeError)
  ∧ (∀ template, j = JObj template → Dict.get "Resources" template = None →
       (_update_sam_template host sam_package_dir w).1 = Raise (KeyError "Resources"))
  ∧ (∀ template v, j = JObj template → Dict.get "Resources" template = Some v →
       (∀ d, v ≠ JObj d) →
       (_update_sam_template host sam_package_dir w).1 = Raise AttributeError)
  ∧ (∀ template before k v after,
       j = JObj template →
       Dict.get "Resources" template = Some (JObj (before ++ (k, v) :: after)) →
       forallb (λ kv, has_type kv.2) before = true →
       has_type v = false →
       (_update_sam_template host sam_package_dir w).1
       = Raise (match v with JObj _ => KeyError "Type" | _ => TypeError end))
  ∧ (∀ template before k d after,
       j = JObj template →
       Dict.get "Resources" template = Some (JObj (before ++ (k, JObj d) :: after)) →
       forallb (λ kv, resource_ok kv.2) before = true →
       forallb (λ kv, has_type kv.2) after = true →
       is_function (JObj d) = true →
       match Dict.get "Properties" d with Some (JObj _) => False | _ => True end →
       (_update_sam_template host sam_package_dir w).1
       = Raise (match Dict.get "Properties" d with
                | None => KeyError "Properties"
                | Some _ => TypeError
                end)).
Proof.
  intros Hzip Hsam Hload.
  unfold _update_sam_template.
  erewrite bind_ok by (eapply Asset_new_ok, Hzip).
  erewrite bind_ok by (eapply open_ok; simpl; exact Hsam).
  erewrite bind_ok by (eapply json_load_ok; simpl; [exact Hsam|exact Hload]).
  simpl. rewrite bind_lift. split_and!.
  - intros Hj. destruct j; try done. by destruct (Hj fields).
  - intros template -> Hres. simpl. by rewrite Hres.
  - intros template v -> Hres Hv. simpl. rewrite Hres, bind_lift.
    destruct v; try done. by destruct (Hv fields).
  - intros template before k v after -> Hres Hbefore Hv. simpl.
    rewrite Hres, bind_lift. simpl. rewrite bind_lift.
    erewrite select_functions_raise; [done|done|].
    revert Hv. unfold has_type. destruct v as [| | | | | |d]; try done.
    simpl. by destruct (Dict.get "Type" d).
  - intros template before k d after -> Hres Hbefore Hafter Hfun Hprops. simpl.
    rewrite Hres, bind_lift. simpl. rewrite bind_lift.
    edestruct (update_functions_raise
                 (asset_location host (deployment_zip_path sam_package_dir) archive)
                 before after k (JObj d)) as (l & Hl & Hraise); [done..| |].
    2: { rewrite Hl, bind_lift. specialize (Hraise [] eq_refl). simpl in Hraise.
         by rewrite Hraise. }
    unfold set_code_uri. simpl.
    destruct (Dict.get "Properties" d) as [[| | | | | |p]|]; done.
Qed.

Lemma update_sam_template_errors_witness :
  (_update_sam_template Example.host "out" (Example.world_manifest (JArr []))).1
  = Raise TypeError
  ∧ (_update_sam_template Example.host "out" (Example.world_manifest (JObj []))).1
    = Raise (KeyError "Resources")
  ∧ (_update_sam_template Example.host "out"
       (Example.world_manifest (JObj [("Resources", JArr [])]))).1
    = Raise AttributeError
  ∧ (_update_sam_template Example.host "out"
       (Example.world_manifest Example.manifest_no_type)).1
    = Raise (KeyError "Type")
  ∧ (_update_sam_template Example.host "out"
       (Example.world_manifest Example.manifest_no_properties)).1
    = Raise (KeyError "Properties").
Proof.
  split_and!.
  - eapply (update_sam_template_errors Example.host "out"
              (Example.world_manifest (JArr [])) "PK-archive"
              (PyJson.dumps (JArr [])) (JArr [])).
    + vm_compute. reflexivity.
    + vm_compute. reflexivity.
    + vm_compute. reflexivity.
    + discriminate.
  - edestruct (update_sam_template_errors Example.host "out"
                 (Example.world_manifest (JObj [])) "PK-archive"
                 (PyJson.dumps (JObj [])) (JObj []))
      as (_ & Hkey & _).
    + vm_compute. reflexivity.
    + vm_compute. reflexivity.
    + vm_compute. reflexivity.
    + apply (Hkey []); reflexivity.
  - edestruct (update_sam_template_errors Example.host "out"
                 (Example.world_manifest (JObj [("Resources", JArr [])]))
                 "PK-archive" (PyJson.dumps (JObj [("Resources", JArr [])]))
                 (JObj [("Resources", JArr [])]))
      as (_ & _ & Hattr & _).
    + vm_compute. reflexivity.
    + vm_compute. reflexivity.
    + vm_compute. reflexivity.
    + apply (Hattr [("Resources", JArr [])] (JArr [])); [reflexivity..|discriminate].
  - edestruct (update_sam_template_errors Example.host "out"
                 (Example.world_manifest Example.manifest_no_type)
                 "PK-archive" (PyJson.dumps Example.manifest_no_type)
                 Example.manifest_no_type)
      as (_ & _ & _ & Htype & _).
    + vm_compute. reflexivity.
    + vm_compute. reflexivity.
    + vm_compute. reflexivity.
    + apply (Htype
               [("Resources",
                 JObj [("Handler", JObj [("Type", JStr "AWS::Serverless::Function")]);
                       ("Table", JObj [])])]
               [("Handler", JObj [("Type", JStr "AWS::Serverless::Function")])]
               "Table" (JObj []) []); reflexivity.
  - edestruct (update_sam_template_errors Example.host "out"
                 (Example.world_manifest Example.manifest_no_properties)
                 "PK-archive" (PyJson.dumps Example.manifest_no_properties)
                 Example.manifest_no_properties)
      as (_ & _ & _ & _ & Hprops).
    + vm_compute. reflexivity.
    + vm_compute. reflexivity.
    + vm_compute. reflexivity.
    + apply (Hprops
               [("Resources",
                 JObj [("Table", JObj [("Type", JStr "AWS::DynamoDB::Table")]);
                       ("Handler", JObj [("Type", JStr "AWS::Serverless::Function")])])]
               [("Table", JObj [("Type", JStr "AWS::DynamoDB::Table")])]
               "Handler" [("Type", JStr "AWS::Serverless::Function")] []);
        [reflexivity..|exact I].
Defined.

(** ** The constructor *)

(** X11. When the merge of the stage configuration raises, the constructor raises
    the same exception and has done nothing else: no file is changed, no
    output directory is chosen, nothing is built, published or included;
    the trace gained the opening of the configuration file only. *)
Theorem construct_merge_failure (host : Host) (self : Chalice) (w w' : World)
    (e : exn) :
  _create_stage_with_config host self w = (Raise e, w') →
  construct host self w = (Raise e, w')
  ∧ fs w' = fs w
  ∧ uuid_count w' = uuid_count w
  ∧ trace w' = trace w ++ [EvOpen (config_path self) "r+"].
Proof.
  intros Hrun. pose proof (create_stage_with_config_raise _ _ _ _ _ Hrun) as ->.
  split; [|done].
  unfold construct, Chalice_init. destruct self as [src name cfg dc]. simpl in *.
  by erewrite bind_raise by exact Hrun.
Qed.

Lemma construct_merge_failure_witness :
  construct Example.host Example.self (Example.world_config "{}")
  = (Raise (KeyError "stages"),
     log (EvOpen "app/.chalice/config.json" "r+") (Example.world_config "{}")).
Proof.
  apply (construct_merge_failure Example.host Example.self (Example.world_config "{}")).
  vm_compute. reflexivity.
Defined.

Lemma package_app_local_ok (host : Host) (self : Chalice) (config stages : dict)
    (w : World) (files : gmap string string) (status : Z) :
  docker_config self = None →
  local_build host self config stages w = (files, Ok status) →
  _package_app host self (after_merge host self config stages w)
  = (Ok (chosen_dir host w),
     mkWorld files (os_environ w) (os_getcwd w) (S (uuid_count w))
       (trace w ++ [EvOpen (config_path self) "r+";
                    EvWriteFile (config_path self);
                    EvWriteFile (config_path self)]
        ++ local_events host self config stages w)).
Proof.
  intros Hdocker Hbuild. unfold local_build in Hbuild.
  unfold _package_app, uuid4, get_world, ret. unfold bind at 1 2 3. simpl.
  rewrite Hdocker. fold (chosen_dir host w).
  unfold bind. rewrite package_app_subprocess_run.
  unfold local_events, local_command, local_env in *. simpl in *.
  rewrite Hbuild. simpl.
  unfold with_fs, log. simpl.
  by rewrite <- !app_assoc.
Qed.

Lemma update_sam_template_no_archive (host : Host) (sam_package_dir : string)
    (w : World) :
  fs w !! deployment_zip_path sam_package_dir = None →
  _update_sam_template host sam_package_dir w
  = (Raise (AssetPathError (deployment_zip_path sam_package_dir)), w).
Proof.
  intros Hzip. unfold _update_sam_template.
  by erewrite bind_raise by (eapply Asset_new_missing, Hzip).
Qed.

(** X12. A local build that exits without leaving the archive, whatever its exit
    status, is noticed only by the rewrite: the constructor raises the
    asset's lookup error for [deployment.zip] in the chosen directory.  The
    merge is not undone: the files are those the build left, the build
    having seen the merged configuration; nothing is included. *)
Theorem construct_build_without_archive (host : Host) (self : Chalice) (w : World)
    (text : string) (config stages : dict) (files : gmap string string) (status : Z) :
  fs w !! config_path self = Some text →
  json_loads host text = Some (JObj config) →
  Dict.get "stages" config = Some (JObj stages) →
  docker_config self = None →
  local_build host self config stages w = (files, Ok status) →
  files !! deployment_zip_path (chosen_dir host w) = None →
  (construct host self w).1
  = Raise (AssetPathError (deployment_zip_path (chosen_dir host w)))
  ∧ fs (construct host self w).2 = files
  ∧ trace (construct host self w).2
    = trace w ++ [EvOpen (config_path self) "r+";
                  EvWriteFile (config_path self);
                  EvWriteFile (config_path self)]
      ++ local_events host self config stages w.
Proof.
  intros Hfile Hload Hstages Hdocker Hbuild Hzip.
  unfold construct, Chalice_init.
  replace (mkChalice (source_dir self) (stage_name self) (stage_config self)
             (docker_config self)) with self by by destruct self.
  erewrite bind_ok by by eapply create_stage_with_config_ok.
  erewrite bind_ok by by eapply package_app_local_ok.
  erewrite bind_raise by (eapply update_sam_template_no_archive; simpl; exact Hzip).
  done.
Qed.

Lemma construct_build_without_archive_witness :
  (construct Example.host_build_fails Example.self Example.world).1
  = Raise (AssetPathError "/work/chalice.out/9f1c0/deployment.zip")
  ∧ fs (construct Example.host_build_fails Example.self Example.world).2
      !! "app/.chalice/config.json"
    = Some (json_dumps Example.host_build_fails
              (merged Example.self
                 [("version", JStr "2.0"); ("app_name", JStr "demo");
                  ("stages", JObj [("dev", JObj [("api_gateway_stage", JStr "api")])])]
                 [("dev", JObj [("api_gateway_stage", JStr "api")])])).
Proof.
  destruct (construct_build_without_archive Example.host_build_fails Example.self
              Example.world (PyJson.dumps Example.config)
              [("version", JStr "2.0"); ("app_name", JStr "demo");
               ("stages", JObj [("dev", JObj [("api_gateway_stage", JStr "api")])])]
              [("dev", JObj [("api_gateway_stage", JStr "api")])]
              (fs (after_merge Example.host_build_fails Example.self
                     [("version", JStr "2.0"); ("app_name", JStr "demo");
                      ("stages",
                       JObj [("dev", JObj [("api_gateway_stage", JStr "api")])])]
                     [("dev", JObj [("api_gateway_stage", JStr "api")])]
                     Example.world))
              1%Z) as (Hraise & Hfs & _).
  - vm_compute. reflexivity.
  - vm_compute. reflexivity.
  - vm_compute. reflexivity.
  - reflexivity.
  - vm_compute. reflexivity.
  - vm_compute. reflexivity.
  - split; [exact Hraise|].
    rewrite Hfs. apply lookup_insert_eq.
Defined.

(** X13. A local build that leaves the archive and a manifest the rewrite can
    process makes the constructor return, whatever the exit status of the
    build: the configuration is merged, the build is run in the chosen
    directory, the asset is created, the manifest is read, and the
    rewritten manifest is included under [ChaliceApp], in this order. *)
Theorem construct_local_success (host : Host) (self : Chalice) (w : World)
    (text : string) (config stages : dict) (files : gmap string string) (status : Z)
    (archive manifest_text : string) (template resources : dict) :
  fs w !! config_path self = Some text →
  json_loads host text = Some (JObj config) →
  Dict.get "stages" config = Some (JObj stages) →
  docker_config self = None →
  local_build host self config stages w = (files, Ok status) →
  files !! deployment_zip_path (chosen_dir host w) = Some archive →
  files !! sam_template_path (chosen_dir host w) = Some manifest_text →
  json_loads host manifest_text = Some (JObj template) →
  Dict.get "Resources" template = Some (JObj resources) →
  forallb (λ kv, resource_ok kv.2) resources = true →
  (construct host self w).1 = Ok self
  ∧ fs (construct host self w).2 = files
  ∧ trace (construct host self w).2
    = trace w
      ++ [EvOpen (config_path self) "r+";
          EvWriteFile (config_path self);
          EvWriteFile (config_path self)]
      ++ local_events host self config stages w
      ++ [EvAsset "ChaliceAppCode" (deployment_zip_path (chosen_dir host w));
          EvOpen (sam_template_path (chosen_dir host w)) "r";
          EvCfnInclude "ChaliceApp"
            (JObj (Dict.set "Resources"
                     (JObj (prod_map id
                              (rewritten
                                 (asset_location host
                                    (deployment_zip_path (chosen_dir host w)) archive))
                              <$> resources))
                     template))].
Proof.
  intros Hfile Hload Hstages Hdocker Hbuild Hzip Hsam Hmload Hres Hok.
  unfold construct, Chalice_init.
  replace (mkChalice (source_dir self) (stage_name self) (stage_config self)
             (docker_config self)) with self by by destruct self.
  erewrite bind_ok by by eapply create_stage_with_config_ok.
  erewrite bind_ok by by eapply package_app_local_ok.
  erewrite bind_ok by by eapply update_sam_template_run.
  unfold bind, emit, ret. simpl. split_and!; [done..|].
  by rewrite <- !app_assoc.
Qed.

Lemma construct_local_success_witness :
  (construct Example.host Example.self Example.world).1 = Ok Example.self.
Proof.
  eapply (construct_local_success Example.host Example.self Example.world
            (PyJson.dumps Example.config)
            [("version", JStr "2.0"); ("app_name", JStr "demo");
             ("stages", JObj [("dev", JObj [("api_gateway_stage", JStr "api")])])]
            [("dev", JObj [("api_gateway_stage", JStr "api")])]
            (Example.built "/work/chalice.out/9f1c0"
               (fs (after_merge Example.host Example.self
                      [("version", JStr "2.0"); ("app_name", JStr "demo");
                       ("stages",
                        JObj [("dev", JObj [("api_gateway_stage", JStr "api")])])]
                      [("dev", JObj [("api_gateway_stage", JStr "api")])]
                      Example.world)))
            0%Z "PK-archive" (PyJson.dumps Example.manifest)
            [("AWSTemplateFormatVersion", JStr "2010-09-09");
             ("Resources",
              JObj [("APIHandler",
                     JObj [("Type", JStr "AWS::Serverless::Function");
                           ("Properties",
                            JObj [("Runtime", JStr "python3.7");
                                  ("CodeUri", JStr "./deployment.zip");
                                  ("Timeout", JInt 60)])]);
                    ("RestAPI",
                     JObj [("Type", JStr "AWS::Serverless::Api");
                           ("Properties", JObj [("StageName", JStr "api")])]);
                    ("Worker",
                     JObj [("Properties", JObj [("Handler", JStr "app.worker")]);
                           ("Type", JStr "AWS::Serverless::Function")])])]
            [("APIHandler",
              JObj [("Type", JStr "AWS::Serverless::Function");
                    ("Properties",
                     JObj [("Runtime", JStr "python3.7");
                           ("CodeUri", JStr "./deployment.zip");
                           ("Timeout", JInt 60)])]);
             ("RestAPI",
              JObj [("Type", JStr "AWS::Serverless::Api");
                    ("Properties", JObj [("StageName", JStr "api")])]);
             ("Worker",
              JObj [("Properties", JObj [("Handler", JStr "app.worker")]);
                    ("Type", JStr "AWS::Serverless::Function")])]).
  - vm_compute. reflexivity.
  - vm_compute. reflexivity.
  - vm_compute. reflexivity.
  - reflexivity.
  - vm_compute. reflexivity.
  - vm_compute. reflexivity.
  - vm_compute. reflexivity.
  - vm_compute. reflexivity.
  - vm_compute. reflexivity.
  - vm_compute. reflexivity.
Defined.

(** ** The output directory *)

Lemma os_path_join_inj (a b b' : string) :
  Str.startswith "/" b = false → Str.startswith "/" b' = false →
  os_path_join a b = os_path_join a b' → b = b'.
Proof.
  unfold os_path_join. intros -> ->.
  destruct (String.eqb a "" || Str.endswith "/" a); intros H.
  - by apply (inj (String.app a)) in H.
  - apply (inj (String.app a)) in H. by apply (inj (String.app "/")) in H.
Qed.

Lemma package_app_world (host : Host) (self : Chalice) (w : World) :
  uuid_count (_package_app host self w).2 = S (uuid_count w)
  ∧ os_getcwd (_package_app host self w).2 = os_getcwd w
  ∧ ∀ d, (_package_app host self w).1 = Ok d → d = chosen_dir host w.
Proof.
  rewrite package_app_eq. simpl.
  destruct (docker_config self) as [dc|].
  - rewrite package_app_container_run.
    destruct (docker_from_env host _) as [e0|]; [done|]. simpl.
    destruct (containers_run _ _ _ _ _ _ _ _) as [files [[]|]]; simpl;
      split_and!; try done; by intros d [= <-].
  - rewrite package_app_subprocess_run. simpl.
    destruct (subprocess_run _ _ _ _ _) as [files [rc|e]]; simpl;
      split_and!; try done; by intros d [= <-].
Qed.

(** X15. Every call of [_package_app] draws one identifier, also when the runner
    raises, and the directory it returns is
    [<cwd>/chalice.out/<identifier>].  Two calls in a row therefore return
    different directories whenever the two identifiers differ (neither
    starting with a slash, which would make [os.path.join] drop the
    prefix). *)
Theorem package_app_fresh_directory (host : Host) (self self' : Chalice) (w : World)
    (d d' : string) :
  uuid4_hex host (uuid_count w) ≠ uuid4_hex host (S (uuid_count w)) →
  Str.startswith "/" (uuid4_hex host (uuid_count w)) = false →
  Str.startswith "/" (uuid4_hex host (S (uuid_count w))) = false →
  (_package_app host self w).1 = Ok d →
  (_package_app host self' (_package_app host self w).2).1 = Ok d' →
  d = os_path_join (os_path_join (os_getcwd w) "chalice.out")
        (uuid4_hex host (uuid_count w))
  ∧ d' = os_path_join (os_path_join (os_getcwd w) "chalice.out")
           (uuid4_hex host (S (uuid_count w)))
  ∧ d ≠ d'.
Proof.
  intros Hne Hs Hs' Hd Hd'.
  destruct (package_app_world host self w) as (Hn & Hcwd & Hdir).
  destruct (package_app_world host self' (_package_app host self w).2)
    as (_ & _ & Hdir').
  apply Hdir in Hd as ->. apply Hdir' in Hd' as ->.
  unfold chosen_dir. rewrite Hn, Hcwd. split_and!; [done..|].
  intros Heq. by apply os_path_join_inj in Heq.
Qed.

Lemma package_app_fresh_directory_witness :
  "/work/chalice.out/9f1c0" ≠ "/work/chalice.out/9f1c1"
  ∧ (_package_app Example.host Example.self
       (_package_app Example.host Example.self Example.world).2).1
    = Ok "/work/chalice.out/9f1c1".
Proof.
  destruct (package_app_fresh_directory Example.host Example.self Example.self
              Example.world "/work/chalice.out/9f1c0" "/work/chalice.out/9f1c1")
    as (_ & _ & Hne).
  - vm_compute. discriminate.
  - vm_compute. reflexivity.
  - vm_compute. reflexivity.
  - vm_compute. reflexivity.
  - vm_compute. reflexivity.
  - split; [exact Hne|]. vm_compute. reflexivity.
Defined.

(** ** The environment of [DockerConfig] as an object *)

(** X16. A non-empty dictionary passed as [env] is not copied: [self.env] is the
    caller's own dictionary, and the [setdefault] of the constructor writes
    into it.  After the construction the caller's dictionary holds the
    region, [us-east-1] if it held none; the other dictionaries are
    untouched.  What [self.env] then holds is the environment of the
    configuration as [DockerConfig_init] gives it. *)
Theorem docker_config_env_shared (host : Host) (image_arg : option string)
    (r : nat) (init_commands_arg : option (list string)) (h : Refs.heap)
    (e : gmap string string) :
  h !! r = Some e → e ≠ ∅ →
  let self := (Refs.DockerConfig_init host image_arg (Some r) init_commands_arg h).1 in
  let h' := (Refs.DockerConfig_init host image_arg (Some r) init_commands_arg h).2 in
  Refs.env self = r
  ∧ h' !! r = Some (setdefault "AWS_DEFAULT_REGION" "us-east-1" e)
  ∧ (e !! "AWS_DEFAULT_REGION" = None →
     h' !! r = Some (<["AWS_DEFAULT_REGION" := "us-east-1"]> e) ∧ h' !! r ≠ h !! r)
  ∧ (∀ r', r' ≠ r → h' !! r' = h !! r')
  ∧ h' !! Refs.env self
    = Some (env (DockerConfig_init host image_arg (Some e) init_commands_arg))
  ∧ Refs.image self
    = image (DockerConfig_init host image_arg (Some e) init_commands_arg)
  ∧ Refs.init_commands self
    = init_commands (DockerConfig_init host image_arg (Some e) init_commands_arg).
Proof.
  intros Hr He. unfold Refs.DockerConfig_init.
  rewrite (lookup_total_correct h r e Hr).
  destruct (decide (e = ∅)) as [|_]; [done|]. simpl.
  rewrite (lookup_total_correct h r e Hr). split_and!.
  - done.
  - apply lookup_insert_eq.
  - intros Hnone. rewrite lookup_insert_eq. unfold setdefault. rewrite Hnone.
    split; [done|]. rewrite Hr. intros [= Heq].
    apply (f_equal (λ m, m !! "AWS_DEFAULT_REGION")) in Heq.
    by rewrite lookup_insert_eq, Hnone in Heq.
  - intros r' Hr'. by apply lookup_insert_ne.
  - rewrite lookup_insert_eq. by destruct (decide (e = ∅)).
  - done.
  - done.
Qed.

Lemma docker_config_env_shared_witness :
  (Refs.DockerConfig_init Example.host None (Some 0) None
     {[ 0 := {[ "HOME" := "/root" ]} ]}).2 !! 0
  = Some (<["AWS_DEFAULT_REGION" := "us-east-1"]> {[ "HOME" := "/root" ]}).
Proof.
  destruct (docker_config_env_shared Example.host None 0 None
              {[ 0 := {[ "HOME" := "/root" ]} ]} {[ "HOME" := "/root" ]})
    as (_ & _ & Hchanged & _).
  - vm_compute. reflexivity.
  - intros Heq. apply (f_equal (λ m, m !! "HOME")) in Heq.
    vm_compute in Heq. discriminate.
  - apply Hchanged. vm_compute. reflexivity.
Defined.

(** X17. Without [env], or with an empty dictionary, [self.env] is a new
    dictionary that holds the region only: the dictionaries that existed,
    the caller's empty one among them, are as they were. *)
Theorem docker_config_env_fresh (host : Host) (image_arg : option string)
    (env_arg : option nat) (init_commands_arg : option (list string))
    (h : Refs.heap) :
  (env_arg = None ∨ ∃ r, env_arg = Some r ∧ h !! r = Some ∅) →
  let self := (Refs.DockerConfig_init host image_arg env_arg init_commands_arg h).1 in
  let h' := (Refs.DockerConfig_init host image_arg env_arg init_commands_arg h).2 in
  h !! Refs.env self = None
  ∧ h' !! Refs.env self = Some {[ "AWS_DEFAULT_REGION" := "us-east-1" ]}
  ∧ (∀ r e, h !! r = Some e → h' !! r = Some e)
  ∧ h' !! Refs.env self
    = Some (env (DockerConfig_init host image_arg (env_arg ≫= (h !!.))
                   init_commands_arg)).
Proof.
  intros Harg.
  assert (h !! fresh (dom h) = None) as Hfresh
    by apply not_elem_of_dom, is_fresh.
  assert ((Refs.DockerConfig_init host image_arg env_arg init_commands_arg h).1
          = Refs.mkDockerConfigRef
              (match image_arg with
               | None | Some "" => default_image host
               | Some i => i
               end)
              (fresh (dom h))
              (match init_commands_arg with None | Some [] => [] | Some l => l end)
          ∧ (Refs.DockerConfig_init host image_arg env_arg init_commands_arg h).2
            = <[fresh (dom h) := {[ "AWS_DEFAULT_REGION" := "us-east-1" ]}]>
                (<[fresh (dom h) := ∅]> h)
          ∧ env (DockerConfig_init host image_arg (env_arg ≫= (h !!.))
                   init_commands_arg)
            = {[ "AWS_DEFAULT_REGION" := "us-east-1" ]}) as (-> & -> & ->).
  { unfold Refs.DockerConfig_init, Refs.new_dict.
    destruct Harg as [-> | (r & -> & Hr)]; simpl.
    - rewrite lookup_total_insert_eq. by split_and!.
    - rewrite (lookup_total_correct h r ∅ Hr), Hr. simpl.
      destruct (decide (∅ = ∅)); [|done]. simpl.
      rewrite lookup_total_insert_eq. by split_and!. }
  simpl. split_and!.
  - done.
  - apply lookup_insert_eq.
  - intros r e Hr. rewrite !lookup_insert_ne; [done|congruence..].
  - apply lookup_insert_eq.
Qed.

Lemma docker_config_env_fresh_witness :
  (Refs.DockerConfig_init Example.host None (Some 0) None {[ 0 := ∅ ]}).2 !! 0
  = Some ∅
  ∧ Refs.env (Refs.DockerConfig_init Example.host None (Some 0) None {[ 0 := ∅ ]}).1
    ≠ 0.
Proof.
  destruct (docker_config_env_fresh Example.host None (Some 0) None {[ 0 := ∅ ]})
    as (Hnew & _ & Hkept & _).
  - right. exists 0. split; [reflexivity|]. vm_compute. reflexivity.
  - split.
    + apply Hkept. vm_compute. reflexivity.
    + intros Heq. rewrite Heq in Hnew. vm_compute in Hnew. discriminate.
Defined.

(** ** The constructor with a container *)

(** X14. With a [docker_config], the constructor raises after the merge
    when the containerized runner does.  When [docker.from_env()] raises,
    its exception comes out and nothing is printed or run.  When the client
    is made and [containers.run] raises, what comes out is [ChaliceError]
    with the message on the image for [NotFound], the exception of the
    runtime otherwise.  In both cases the merge is not undone (the
    configuration file stays merged; after a run the files are those the
    runtime left, and it was given the merged configuration), no asset is
    created and nothing is included. *)
Theorem construct_container_failure (host : Host) (self : Chalice) (dc : DockerConfig)
    (w : World) (text : string) (config stages : dict) :
  fs w !! config_path self = Some text →
  json_loads host text = Some (JObj config) →
  Dict.get "stages" config = Some (JObj stages) →
  docker_config self = Some dc →
  (∀ no_client, docker_from_env host (os_environ w) = Some no_client →
     (construct host self w).1 = Raise no_client
     ∧ fs (construct host self w).2
       = <[config_path self := json_dumps host (merged self config stages)]> (fs w)
     ∧ trace (construct host self w).2
       = trace w ++ [EvOpen (config_path self) "r+";
                     EvWriteFile (config_path self);
                     EvWriteFile (config_path self);
                     EvDockerFromEnv])
  ∧ (∀ files e, docker_from_env host (os_environ w) = None →
       container_build host self dc config stages w = (files, Some e) →
       (construct host self w).1
       = Raise (match e with
                | DockerNotFound _ => ChaliceError (unsupported_image_message dc)
                | _ => e
                end)
       ∧ fs (construct host self w).2 = files
       ∧ trace (construct host self w).2
         = trace w ++ [EvOpen (config_path self) "r+";
                       EvWriteFile (config_path self);
                       EvWriteFile (config_path self);
                       EvDockerFromEnv;
                       EvPrint ("Packaging Chalice app for " +:+ stage_name self);
                       EvContainersRun (image dc) (docker_command self dc) (env dc)
                         true (docker_volumes self (chosen_dir host w)) "/app"]).
Proof.
  intros Hfile Hload Hstages Hdocker.
  assert (∀ e w', _package_app host self (after_merge host self config stages w)
                  = (Raise e, w') →
                  construct host self w = (Raise e, w')) as Hconstruct.
  { intros e w' Hrun. unfold construct, Chalice_init.
    replace (mkChalice (source_dir self) (stage_name self) (stage_config self)
               (docker_config self)) with self by by destruct self.
    erewrite bind_ok by by eapply create_stage_with_config_ok.
    by erewrite bind_raise by exact Hrun. }
  split.
  - intros e0 He0. erewrite Hconstruct.
    2: { rewrite package_app_eq, Hdocker, package_app_container_run. simpl.
         rewrite He0. reflexivity. }
    simpl. split_and!; [done..|]. by rewrite <- !app_assoc.
  - intros files e Hclient Hbuild. unfold container_build in Hbuild.
    erewrite Hconstruct.
    2: { rewrite package_app_eq, Hdocker, package_app_container_run. simpl.
         rewrite Hclient.
         change (chosen_dir host (after_merge host self config stages w))
           with (chosen_dir host w).
         simpl in *. rewrite Hbuild. simpl.
         instantiate (2 := match e with
                           | DockerNotFound _ =>
                               ChaliceError (unsupported_image_message dc)
                           | _ => e
                           end).
         by destruct e. }
    simpl. split_and!; [done..|]. by rewrite <- !app_assoc.
Qed.

Lemma construct_container_failure_witness :
  ((construct Example.host_no_daemon Example.self_docker Example.world).1
   = Raise (DockerAPIError "Error while fetching server API version")
   ∧ existsb is_containers_run
       (trace (construct Example.host_no_daemon Example.self_docker Example.world).2)
     = false)
  ∧ (∃ message,
       (construct Example.host_no_image Example.self_docker Example.world).1
       = Raise (ChaliceError message))
  ∧ List.filter is_asset
      (trace (construct Example.host_no_image Example.self_docker Example.world).2)
    = [].
Proof.
  destruct (construct_container_failure Example.host_no_daemon Example.self_docker
              Example.docker Example.world (PyJson.dumps Example.config)
              [("version", JStr "2.0"); ("app_name", JStr "demo");
               ("stages", JObj [("dev", JObj [("api_gateway_stage", JStr "api")])])]
              [("dev", JObj [("api_gateway_stage", JStr "api")])])
    as [Hclient _].
  1-3: vm_compute; reflexivity.
  1: reflexivity.
  destruct (construct_container_failure Example.host_no_image Example.self_docker
              Example.docker Example.world (PyJson.dumps Example.config)
              [("version", JStr "2.0"); ("app_name", JStr "demo");
               ("stages", JObj [("dev", JObj [("api_gateway_stage", JStr "api")])])]
              [("dev", JObj [("api_gateway_stage", JStr "api")])])
    as [_ Hrun].
  1-3: vm_compute; reflexivity.
  1: reflexivity.
  destruct (Hclient (DockerAPIError "Error while fetching server API version")
              eq_refl) as (Hraise & _ & Htrace).
  destruct (Hrun (fs (after_merge Example.host_no_image Example.self_docker
                        [("version", JStr "2.0"); ("app_name", JStr "demo");
                         ("stages",
                          JObj [("dev", JObj [("api_gateway_stage", JStr "api")])])]
                        [("dev", JObj [("api_gateway_stage", JStr "api")])]
                        Example.world))
              (DockerNotFound "No such image: lambci/lambda:build-python3.7")
              eq_refl) as (Hraise' & _ & Htrace').
  { vm_compute. reflexivity. }
  split_and!.
  - exact Hraise.
  - rewrite Htrace. reflexivity.
  - eexists. exact Hraise'.
  - rewrite Htrace'. reflexivity.
Defined.

(** ** Where [CodeUri] goes *)

(** X10. In a function resource the rewrite puts [CodeUri] where it was among
    the keys of [Properties], and after the other keys when there was none;
    a function without [CodeUri] thus gains one. *)
Theorem update_sam_template_code_uri_place (host : Host) (sam_package_dir : string)
    (w : World) (archive text : string) (template resources : dict)
    (i : nat) (name : string) (d p : dict) :
  fs w !! deployment_zip_path sam_package_dir = Some archive →
  fs w !! sam_template_path sam_package_dir = Some text →
  json_loads host text = Some (JObj template) →
  Dict.get "Resources" template = Some (JObj resources) →
  forallb (λ kv, resource_ok kv.2) resources = true →
  resources !! i = Some (name, JObj d) →
  is_function (JObj d) = true →
  Dict.get "Properties" d = Some (JObj p) →
  ∃ template' resources' d' p' : dict,
    (_update_sam_template host sam_package_dir w).1 = Ok (JObj template')
    ∧ Dict.get "Resources" template' = Some (JObj resources')
    ∧ resources' !! i = Some (name, JObj d')
    ∧ Dict.get "Properties" d' = Some (JObj p')
    ∧ Dict.keys p' = match Dict.get "CodeUri" p with
                     | Some _ => Dict.keys p
                     | None => Dict.keys p ++ ["CodeUri"]
                     end.
Proof.
  intros Hzip Hsam Hload Hres Hok Hi Hfun Hp.
  erewrite update_sam_template_run by done.
  pose proof (forallb_lookup _ _ _ _ Hok Hi) as Hr. simpl in Hr.
  destruct (rewritten_function
              (asset_location host (deployment_zip_path sam_package_dir) archive)
              (JObj d) Hr Hfun) as (d0 & p0 & [= <-] & Hp0 & Hrw).
  rewrite Hp in Hp0. injection Hp0 as <-.
  eexists _, _, _, _. split_and!.
  - reflexivity.
  - apply get_set_eq.
  - rewrite list_lookup_fmap, Hi. simpl. by rewrite Hrw.
  - apply get_set_eq.
  - destruct (Dict.get "CodeUri" p) eqn:E.
    + eapply keys_set_present, E.
    + by apply keys_set_absent.
Qed.

Lemma update_sam_template_code_uri_place_witness :
  ∃ template' resources' d' p' : dict,
    (_update_sam_template Example.host "out" Example.world_built).1
    = Ok (JObj template')
    ∧ Dict.get "Resources" template' = Some (JObj resources')
    ∧ resources' !! 2 = Some ("Worker", JObj d')
    ∧ Dict.get "Properties" d' = Some (JObj p')
    ∧ Dict.keys p' = ["Handler"; "CodeUri"].
Proof.
  apply (update_sam_template_code_uri_place Example.host "out" Example.world_built
           "PK-archive" (PyJson.dumps Example.manifest)
           [("AWSTemplateFormatVersion", JStr "2010-09-09");
            ("Resources",
             JObj [("APIHandler",
                    JObj [("Type", JStr "AWS::Serverless::Function");
                          ("Properties",
                           JObj [("Runtime", JStr "python3.7");
                                 ("CodeUri", JStr "./deployment.zip");
                                 ("Timeout", JInt 60)])]);
                   ("RestAPI",
                    JObj [("Type", JStr "AWS::Serverless::Api");
                          ("Properties", JObj [("StageName", JStr "api")])]);
                   ("Worker",
                    JObj [("Properties", JObj [("Handler", JStr "app.worker")]);
                          ("Type", JStr "AWS::Serverless::Function")])])]
           [("APIHandler",
             JObj [("Type", JStr "AWS::Serverless::Function");
                   ("Properties",
                    JObj [("Runtime", JStr "python3.7");
                          ("CodeUri", JStr "./deployment.zip");
                          ("Timeout", JInt 60)])]);
            ("RestAPI",
             JObj [("Type", JStr "AWS::Serverless::Api");
                   ("Properties", JObj [("StageName", JStr "api")])]);
            ("Worker",
             JObj [("Properties", JObj [("Handler", JStr "app.worker")]);
                   ("Type", JStr "AWS::Serverless::Function")])]
           2 "Worker"
           [("Properties", JObj [("Handler", JStr "app.worker")]);
            ("Type", JStr "AWS::Serverless::Function")]
           [("Handler", JStr "app.worker")]).
  - vm_compute. reflexivity.
  - vm_compute. reflexivity.
  - vm_compute. reflexivity.
  - reflexivity.
  - reflexivity.
  - reflexivity.
  - reflexivity.
  - reflexivity.
Defined.
